(** * License server: shallow embedding and specification proofs

    Two variants of the server are embedded:
    - the file-backed server ([src/unnamed/part_000]): the whole store is one
      JSON object read with [getLicenses] and written back with
      [saveLicenses]; a lookup [licenses[licenseKey]] is a JavaScript
      property read, which also finds properties inherited from
      [Object.prototype];
    - the document-store server (the second program in [src/server.js],
      lines 164-440): one document per key with a unique index on
      [licenseKey]. *)

From Stdlib Require Import Ascii ZArith Lia.
From stdpp Require Import base gmap strings list.

Local Open Scope stdpp_scope.

(* ================================================================== *)
(** ** JavaScript string helpers *)

(** [String.prototype.toUpperCase] on the ASCII range. *)
Definition js_upper_char (c : ascii) : ascii :=
  let n := N_of_ascii c in
  if (97 <=? n)%N && (n <=? 122)%N then ascii_of_N (n - 32) else c.

Fixpoint js_toUpperCase (s : string) : string :=
  match s with
  | EmptyString => EmptyString
  | String c s' => String (js_upper_char c) (js_toUpperCase s')
  end.

(** [s.substring(start, end)]: negative or NaN arguments are clamped to 0,
    arguments past the end to the length, and the two are swapped when
    [start > end]; an omitted [end] is the length. *)
Definition js_substring (s : string) (start : Z) (end_ : option Z) : string :=
  let len := Z.of_nat (String.length s) in
  let clamp z := Z.max 0 (Z.min z len) in
  let a := clamp start in
  let b := clamp (default len end_) in
  let lo := Z.min a b in
  let hi := Z.max a b in
  String.substring (Z.to_nat lo) (Z.to_nat (hi - lo)) s.

(** [s.substr(start, length)] for non-negative arguments. *)
Definition js_substr (s : string) (start len : nat) : string :=
  String.substring start len s.

(* ================================================================== *)
(** ** Key generator ([generateLicenseKey], part_000 lines 47-62 and
       server.js lines 223-239) *)

(** One hexadecimal digit as [Buffer.toString('hex')] writes it
    (lowercase). *)
Definition hex_digit (n : N) : ascii :=
  if (n <? 10)%N then ascii_of_N (48 + n) else ascii_of_N (87 + n).

(** [buf.toString('hex')]: two lowercase digits per byte. *)
Fixpoint hex_of_bytes (bs : list Byte.byte) : string :=
  match bs with
  | [] => EmptyString
  | b :: bs' =>
      let n := Byte.to_N b in
      String (hex_digit (n / 16)) (String (hex_digit (n mod 16)) (hex_of_bytes bs'))
  end.

(** The entropy source: [crypto.randomBytes(n)] either returns its bytes or
    throws, in which case the fallback reads [Math.random().toString(36)],
    a string of the form ["0." ++ base-36 digits]. *)
Inductive entropy :=
| RandomBytes (bs : list Byte.byte)
| RandomBytesThrows (math_random_base36 : string).

Definition generateLicenseKey (prefix : string) (e : entropy) : string :=
  match e with
  | RandomBytes bs =>
      let randomHex := js_toUpperCase (hex_of_bytes bs) in
      let section1 := js_substr randomHex 0 8 in
      let section2 := js_substr randomHex 8 8 in
      let section3 := js_substr randomHex 16 8 in
      prefix +:+ "-" +:+ section1 +:+ "-" +:+ section2 +:+ "-" +:+ section3
  | RandomBytesThrows r =>
      prefix +:+ "-" +:+ js_toUpperCase (js_substring r 2%Z (Some 10%Z))
  end.

(** [generateSecureLicenseKey] (server.js lines 44-53, in the first program
    of the file): [crypto.randomBytes(16)] with no fallback, so a failure of
    the entropy source propagates; [bs] are the bytes it returns. *)
Definition generateSecureLicenseKey (productCode : string) (bs : list Byte.byte) : string :=
  let randomHex := js_toUpperCase (hex_of_bytes bs) in
  let section1 := js_substr randomHex 0 8 in
  let section2 := js_substr randomHex 8 8 in
  let section3 := js_substr randomHex 16 8 in
  productCode +:+ "-" +:+ section1 +:+ "-" +:+ section2 +:+ "-" +:+ section3.

(** The key format [PREFIX-[0-9A-F]{8}-[0-9A-F]{8}-[0-9A-F]{8}], matched
    against the whole key. *)
Definition is_upper_hex (c : ascii) : bool :=
  let n := N_of_ascii c in
  ((48 <=? n)%N && (n <=? 57)%N) || ((65 <=? n)%N && (n <=? 70)%N).

Definition dash_segment (r : list ascii) : option (list ascii) :=
  match r with
  | c :: r' =>
      if (N_of_ascii c =? 45)%N && (length (take 8 r') =? 8)%nat
         && forallb is_upper_hex (take 8 r')
      then Some (drop 8 r') else None
  | [] => None
  end.

Definition key_format (prefix key : string) : bool :=
  String.prefix prefix key &&
  match (dash_segment (String.list_ascii_of_string
          (String.substring (String.length prefix) (String.length key) key))
        ≫= dash_segment) ≫= dash_segment with
  | Some [] => true
  | _ => false
  end.

(** Characters of [Math.random().toString(36)] after ["0."]. *)
Definition is_base36_digit (c : ascii) : bool :=
  let n := N_of_ascii c in
  ((48 <=? n)%N && (n <=? 57)%N) || ((97 <=? n)%N && (n <=? 122)%N).

Definition is_upper_alnum (c : ascii) : bool :=
  let n := N_of_ascii c in
  ((48 <=? n)%N && (n <=? 57)%N) || ((65 <=? n)%N && (n <=? 90)%N).

(** The value of an uppercase hexadecimal digit: the inverse of the digits
    the generators write, used in the proofs below. *)
Definition upper_hex_value (c : ascii) : N :=
  let n := N_of_ascii c in
  if (n <=? 57)%N then n - 48 else n - 55.

(* ================================================================== *)
(** ** License records and responses *)

(** A license record as both servers store it ([LicenseSchema], server.js
    lines 192-199; the object literal of part_000 lines 86-90).  An absent
    [deviceId] or [activationDate] is [None] (JSON: missing, Mongo: null). *)
Record License := mkLicense {
  product : string;
  activated : bool;
  deviceId : option string;
  activationDate : option string;
  createdAt : string
}.

(** [license.deviceId], for the handlers whose parameter [deviceId] shadows
    the field name. *)
Definition license_deviceId (r : License) : option string := deviceId r.

(** The record written by the issuing endpoint. *)
Definition new_test_license (now : string) : License :=
  mkLicense "test_product" false None None now.

(** The three assignments of a first activation. *)
Definition activate_record (r : License) (d now : string) : License :=
  mkLicense (product r) true (Some d) (Some now) (createdAt r).

(** What a handler sends back. *)
Inductive outcome :=
| InvalidInput                        (* 400 *)
| NotFound                            (* 404 *)
| DeviceConflict                      (* 403, already activated elsewhere *)
| AlreadyActiveSameDevice             (* 200 *)
| Activated                           (* 200 *)
| NotActivated                        (* 403 *)
| DeviceMismatch                      (* 403 *)
| Valid                               (* 200 *)
| Issued (key : string)               (* 201 *)
| IssuedTemporary (key : string)      (* 200, not persisted *)
| Listing (m : gmap string License)   (* 200 *)
| ServerError.                        (* 500 *)

Definition status_code (o : outcome) : Z :=
  match o with
  | InvalidInput => 400
  | NotFound => 404
  | DeviceConflict | NotActivated | DeviceMismatch => 403
  | AlreadyActiveSameDevice | Activated | Valid => 200
  | Issued _ => 201
  | IssuedTemporary _ | Listing _ => 200
  | ServerError => 500
  end.

(** [!x] on a body field: missing ([undefined]) or [""] is falsy. *)
Definition js_falsy_field (x : option string) : bool :=
  match x with
  | None => true
  | Some s => String.eqb s ""
  end.

(* ================================================================== *)
(** ** File-backed server (src/unnamed/part_000) *)
Module FileServer.

(** The license file: either a JSON object, or unreadable / not JSON. *)
Inductive license_file :=
| FileJson (m : gmap string License)
| FileUnreadable.

(** Own property names of [Object.prototype] in Node.js: reading
    [licenses[k]] for one of them yields a built-in object (a function, or
    [Object.prototype] itself for ["__proto__"]) when the store has no own
    key [k]. *)
Definition object_prototype_names : list string :=
  ["constructor"; "__defineGetter__"; "__defineSetter__"; "hasOwnProperty";
   "__lookupGetter__"; "__lookupSetter__"; "isPrototypeOf";
   "propertyIsEnumerable"; "toString"; "valueOf"; "__proto__";
   "toLocaleString"].

Definition is_object_prototype_name (k : string) : bool :=
  existsb (String.eqb k) object_prototype_names.

(** Process state: the file, and the properties [activated], [deviceId] and
    [activationDate] that activations have assigned on built-in objects
    (keyed by the name they were reached through; ["__proto__"] is
    [Object.prototype], from which every other built-in and every wrapper
    of a primitive inherits).  Built-ins live as long as the process. *)
Record FState := mkFState {
  lic_file : license_file;
  builtins : gmap string (string * string)
}.

Definition initial : FState := mkFState (FileJson ∅) ∅.

(** [getLicenses] (lines 28-35): a read or parse failure yields [{}]. *)
Definition getLicenses (f : license_file) : gmap string License :=
  match f with
  | FileJson m => m
  | FileUnreadable => ∅
  end.

(** The outcome of [fs.writeFileSync(LICENSE_FILE, text, 'utf8')], which
    opens the file with flag ['w'] (truncating it) and then writes [text]:
    - [WriteOk]: the whole text is written;
    - [WriteOpenFailed]: the open fails (EACCES, EMFILE, ...) and the file
      is untouched;
    - [WriteInterrupted]: a write fails after the open (ENOSPC, EIO, ...)
      and the file keeps a proper prefix of [text], possibly empty.  The
      text is one JSON object, so [JSON.parse] rejects every proper prefix
      of it. *)
Inductive write_result :=
| WriteOk
| WriteOpenFailed
| WriteInterrupted.

(** [saveLicenses] (lines 37-45): [true] when the write succeeded.
    [JSON.stringify] writes own properties only. *)
Definition saveLicenses (w : write_result) (m : gmap string License)
    (f : license_file) : bool * license_file :=
  match w with
  | WriteOk => (true, FileJson m)
  | WriteOpenFailed => (false, f)
  | WriteInterrupted => (false, FileUnreadable)
  end.

(** The value of [licenses[k]]. *)
Inductive target :=
| TRecord (r : License)          (* an own property: a stored record *)
| TBuiltin (name : string)       (* an inherited built-in object *)
| TProtoBool                     (* [true], once assigned on Object.prototype *)
| TProtoString (s : string)      (* a string assigned on Object.prototype *)
| TUndefined.

Definition proto_props (h : gmap string (string * string)) :=
  h !! "__proto__".

Definition js_lookup (h : gmap string (string * string))
    (m : gmap string License) (k : string) : target :=
  match m !! k with
  | Some r => TRecord r
  | None =>
      if is_object_prototype_name k then TBuiltin k
      else match proto_props h with
           | Some (d, t) =>
               if String.eqb k "activated" then TProtoBool
               else if String.eqb k "deviceId" then TProtoString d
               else if String.eqb k "activationDate" then TProtoString t
               else TUndefined
           | None => TUndefined
           end
  end.

(** [!licenses[k]]. *)
Definition tgt_truthy (t : target) : bool :=
  match t with
  | TUndefined => false
  | TProtoString s => negb (String.eqb s "")
  | _ => true
  end.

(** [licenses[k].activated] as a truth value. *)
Definition tgt_activated (h : gmap string (string * string)) (t : target) : bool :=
  match t with
  | TRecord r => activated r
  | TBuiltin b => bool_decide (is_Some (h !! b)) || bool_decide (is_Some (proto_props h))
  | TProtoBool | TProtoString _ => bool_decide (is_Some (proto_props h))
  | TUndefined => false
  end.

(** [licenses[k].deviceId]; [None] is [undefined] (or [null]). *)
Definition tgt_deviceId (h : gmap string (string * string)) (t : target) : option string :=
  match t with
  | TRecord r =>
      match deviceId r with
      | Some d => Some d
      | None => fst <$> proto_props h
      end
  | TBuiltin b =>
      match h !! b with
      | Some (d, _) => Some d
      | None => fst <$> proto_props h
      end
  | TProtoBool | TProtoString _ => fst <$> proto_props h
  | TUndefined => None
  end.

(** [const { licenseKey, deviceId } = req.body]: [bodyParser.json()] makes
    [req.body] a plain object (or array), so a field the request lacks
    ([None]) is read from [Object.prototype], where an activation of
    ["__proto__"] assigns [activated], [deviceId] and [activationDate]. *)
Definition body_field (h : gmap string (string * string)) (name : string)
    (x : option string) : option string :=
  match x with
  | Some v => Some v
  | None =>
      match proto_props h with
      | Some (d, t) =>
          if String.eqb name "deviceId" then Some d
          else if String.eqb name "activationDate" then Some t
          else None
      | None => None
      end
  end.

(** [x !== deviceId] for a string [deviceId]. *)
Definition js_strict_neq (x : option string) (d : string) : bool :=
  match x with
  | Some s => negb (String.eqb s d)
  | None => true
  end.

(** GET /api/generate-test-license (lines 76-105).  The generated key
    starts with ["TEST-"], so the assignment [licenses[licenseKey] = ...]
    always creates or replaces an own property. *)
Definition generate_test_license (s : FState) (e : entropy) (now : string)
    (w : write_result) : FState * outcome :=
  let licenseKey := generateLicenseKey "TEST" e in
  let licenses := getLicenses (lic_file s) in
  let licenses' := <[licenseKey := new_test_license now]> licenses in
  match saveLicenses w licenses' (lic_file s) with
  | (true, f') => (mkFState f' (builtins s), Issued licenseKey)
  | (false, f') => (mkFState f' (builtins s), ServerError)
  end.

(** POST /api/activate-license (lines 108-164).  The assignments of a first
    activation go to the object [licenses[licenseKey]] denotes: a record of
    the freshly parsed map, or a built-in object of the process (an
    assignment to a primitive is ignored in sloppy mode). *)
Definition activate_license (s : FState) (body_licenseKey body_deviceId : option string)
    (now : string) (w : write_result) : FState * outcome :=
  let h := builtins s in
  let licenseKey := body_field h "licenseKey" body_licenseKey in
  let deviceId := body_field h "deviceId" body_deviceId in
  match licenseKey, deviceId with
  | Some k, Some d =>
      if js_falsy_field licenseKey || js_falsy_field deviceId then (s, InvalidInput)
      else
        let licenses := getLicenses (lic_file s) in
        let t := js_lookup h licenses k in
        if negb (tgt_truthy t) then (s, NotFound)
        else if tgt_activated h t then
          if js_strict_neq (tgt_deviceId h t) d then (s, DeviceConflict)
          else (s, AlreadyActiveSameDevice)
        else
          let '(h', licenses') :=
            match t with
            | TRecord r => (h, <[k := activate_record r d now]> licenses)
            | TBuiltin b => (<[b := (d, now)]> h, licenses)
            | _ => (h, licenses)
            end in
          match saveLicenses w licenses' (lic_file s) with
          | (true, f') => (mkFState f' h', Activated)
          | (false, f') => (mkFState f' h', ServerError)
          end
  | _, _ => (s, InvalidInput)
  end.

(** POST /api/verify-license (lines 167-211). *)
Definition verify_license (s : FState) (body_licenseKey body_deviceId : option string)
    : FState * outcome :=
  let h := builtins s in
  let licenseKey := body_field h "licenseKey" body_licenseKey in
  let deviceId := body_field h "deviceId" body_deviceId in
  match licenseKey, deviceId with
  | Some k, Some d =>
      if js_falsy_field licenseKey || js_falsy_field deviceId then (s, InvalidInput)
      else
        let t := js_lookup h (getLicenses (lic_file s)) k in
        if negb (tgt_truthy t) then (s, NotFound)
        else if negb (tgt_activated h t) then (s, NotActivated)
        else if js_strict_neq (tgt_deviceId h t) d then (s, DeviceMismatch)
        else (s, Valid)
  | _, _ => (s, InvalidInput)
  end.

(** GET /api/admin/licenses (lines 214-221). *)
Definition admin_licenses (s : FState) : FState * outcome :=
  (s, Listing (getLicenses (lic_file s))).

(** A request together with what the environment supplies to it (the
    entropy source, the clock, the outcome of the file write). *)
Inductive request :=
| Issue (e : entropy) (now : string) (w : write_result)
| Activate (licenseKey deviceId : option string) (now : string) (w : write_result)
| Verify (licenseKey deviceId : option string)
| Admin.

Definition step (s : FState) (q : request) : FState * outcome :=
  match q with
  | Issue e now w => generate_test_license s e now w
  | Activate k d now w => activate_license s k d now w
  | Verify k d => verify_license s k d
  | Admin => admin_licenses s
  end.

Fixpoint run (s : FState) (qs : list request) : FState :=
  match qs with
  | [] => s
  | q :: qs' => run (step s q).1 qs'
  end.

End FileServer.

(* ================================================================== *)
(** ** Document-store server (src/server.js, lines 164-440) *)
Module DocServer.

(** The [License] collection, keyed by its unique [licenseKey].
    [db_up] and [save_ok] say whether the database performs an operation:
    when it does not, [findOne] or [save] rejects and the handler answers
    500. *)
Abbreviation store := (gmap string License).

(** [license.save()] of a new document: rejected with code 11000 when the
    unique index already holds the key. *)
Definition insert_new (db : store) (k : string) (r : License) : option store :=
  match db !! k with
  | Some _ => None
  | None => Some (<[k := r]> db)
  end.

(** A handler suspended at an [await] on a write that the database has
    not performed yet; other requests run meanwhile. *)
Inductive waiting :=
| RetrySave (newKey now : string)
    (* [await newLicense.save()], line 307 *)
| ActivationSave (licenseKey deviceId now : string).
    (* [await license.save()], line 370 *)

(** Where a handler stands after a database operation and the code that
    runs synchronously after it: it has answered, or it awaits a write. *)
Inductive progress :=
| Respond (o : outcome)
| Await (w : waiting).

(** GET /api/generate-test-license (lines 261-325) up to its first write,
    [await license.save()] (line 289).  [connected] is
    [mongoose.connection.readyState === 1]; [save_ok] says whether the
    database performs the save (when it does not, the save rejects with an
    error other than 11000 and the handler answers 500, lines 311-316);
    [ts36] is [Date.now().toString(36)].  On error 11000 the handler builds
    the retry key and awaits its save. *)
Definition generate_test_license_start (db : store) (connected save_ok : bool)
    (e1 e2 : entropy) (now ts36 : string) : store * progress :=
  if negb connected then (db, Respond (IssuedTemporary (generateLicenseKey "TEMP" e1)))
  else
    let licenseKey := generateLicenseKey "TEST" e1 in
    if negb save_ok then (db, Respond ServerError)
    else
      match insert_new db licenseKey (new_test_license now) with
      | Some db' => (db', Respond (Issued licenseKey))
      | None =>
          let newKey := generateLicenseKey ("TEST-" +:+ js_substring ts36 (-4) None) e2 in
          (db, Await (RetrySave newKey now))
      end.

(** POST /api/activate-license (lines 328-386) up to its write:
    [findOne] (line 340) reads the stored record when [db_up]; a pending
    record makes the handler assign the three fields and await
    [license.save()]. *)
Definition activate_license_start (db : store) (db_up : bool)
    (licenseKey deviceId : option string) (now : string) : progress :=
  match licenseKey, deviceId with
  | Some k, Some d =>
      if js_falsy_field licenseKey || js_falsy_field deviceId then Respond InvalidInput
      else if negb db_up then Respond ServerError
      else
        match db !! k with
        | None => Respond NotFound
        | Some r =>
            if activated r then
              if FileServer.js_strict_neq (license_deviceId r) d then Respond DeviceConflict
              else Respond AlreadyActiveSameDevice
            else Await (ActivationSave k d now)
        end
  | _, _ => Respond InvalidInput
  end.

(** The database performs the awaited write now, and the handler finishes;
    [save_ok] says whether the database performs it (a rejected write
    reaches the handler's [catch]: 500).
    - the retry save inserts a new document, rejected with 11000 when the
      key is stored by then (the outer [catch]: 500);
    - [license.save()] of a loaded document sends
      [updateOne({_id}, {$set: ...})] with the paths the handler changed
      ([activated], [deviceId], [activationDate]), applied to the document
      as it is stored now. *)
Definition resume (db : store) (w : waiting) (save_ok : bool) : store * outcome :=
  match w with
  | RetrySave newKey now =>
      if negb save_ok then (db, ServerError)
      else
        match insert_new db newKey (new_test_license now) with
        | Some db' => (db', Issued newKey)
        | None => (db, ServerError)
        end
  | ActivationSave k d now =>
      if negb save_ok then (db, ServerError)
      else
        match db !! k with
        | Some r => (<[k := activate_record r d now]> db, Activated)
        | None => (db, ServerError)
        end
  end.

(** The issuing handler run with no other request between its two writes,
    the database performing both when [db_up]. *)
Definition generate_test_license (db : store) (connected db_up : bool)
    (e1 e2 : entropy) (now ts36 : string) : store * outcome :=
  match generate_test_license_start db connected db_up e1 e2 now ts36 with
  | (db', Respond o) => (db', o)
  | (db', Await w) => resume db' w db_up
  end.

(** The activating handler run with no other request between its read and
    its write. *)
Definition activate_license (db : store) (db_up : bool)
    (licenseKey deviceId : option string) (now : string) : store * outcome :=
  match activate_license_start db db_up licenseKey deviceId now with
  | Respond o => (db, o)
  | Await w => resume db w db_up
  end.

(** POST /api/verify-license (lines 389-434): one read. *)
Definition verify_license (db : store) (db_up : bool)
    (licenseKey deviceId : option string) : store * outcome :=
  match licenseKey, deviceId with
  | Some k, Some d =>
      if js_falsy_field licenseKey || js_falsy_field deviceId then (db, InvalidInput)
      else if negb db_up then (db, ServerError)
      else
        match db !! k with
        | None => (db, NotFound)
        | Some r =>
            if negb (activated r) then (db, NotActivated)
            else if FileServer.js_strict_neq (license_deviceId r) d then (db, DeviceMismatch)
            else (db, Valid)
        end
  | _, _ => (db, InvalidInput)
  end.

(** The server with requests in flight: the collection, and the handlers
    suspended at a write. *)
Record DState := mkDState {
  db : store;
  suspended : list waiting
}.

Definition initial : DState := mkDState ∅ [].

(** What happens next: a request arrives and runs up to its first write
    (its read, if any, is performed at once), or the database performs the
    write the [i]-th suspended handler awaits.  Every interleaving of the
    database operations of concurrent requests is a sequence of events. *)
Inductive event :=
| Issue (connected save_ok : bool) (e1 e2 : entropy) (now ts36 : string)
| Activate (db_up : bool) (licenseKey deviceId : option string) (now : string)
| Verify (db_up : bool) (licenseKey deviceId : option string)
| Resume (i : nat) (save_ok : bool).

(** The state after an event, and the response it sends, if any. *)
Definition step (s : DState) (ev : event) : DState * option outcome :=
  match ev with
  | Issue c ok e1 e2 now ts =>
      match generate_test_license_start (db s) c ok e1 e2 now ts with
      | (db', Respond o) => (mkDState db' (suspended s), Some o)
      | (db', Await w) => (mkDState db' (w :: suspended s), None)
      end
  | Activate u lk dv now =>
      match activate_license_start (db s) u lk dv now with
      | Respond o => (s, Some o)
      | Await w => (mkDState (db s) (w :: suspended s), None)
      end
  | Verify u lk dv => (s, Some (verify_license (db s) u lk dv).2)
  | Resume i ok =>
      match suspended s !! i with
      | Some w =>
          let '(db', o) := resume (db s) w ok in
          (mkDState db' (delete i (suspended s)), Some o)
      | None => (s, None)
      end
  end.

Fixpoint run (s : DState) (evs : list event) : DState :=
  match evs with
  | [] => s
  | ev :: evs' => run (step s ev).1 evs'
  end.

End DocServer.

(* ================================================================== *)
(** ** Specification predicates *)

(** The invariant of a stored record: [deviceId] is unset exactly when
    [activated] is false. *)
Definition license_inv (r : License) : Prop :=
  deviceId r = None <-> activated r = false.

(** The shape of every record the handlers write: product
    ["test_product"], and an [activationDate] exactly when activated. *)
Definition record_shape (r : License) : Prop :=
  product r = "test_product" /\ (is_Some (activationDate r) <-> activated r = true).

(** The stored record under [k] is activated and bound to [d]. *)
Definition bound_to (m : gmap string License) (k d : string) : bool :=
  match m !! k with
  | Some r => activated r && bool_decide (deviceId r = Some d)
  | None => false
  end.

Definition file_bound_to (s : FileServer.FState) (k d : string) : bool :=
  match FileServer.lic_file s with
  | FileServer.FileJson m => bound_to m k d
  | FileServer.FileUnreadable => false
  end.

(** The request is an issuance whose generated key is [k]. *)
Definition issues_key (k : string) (q : FileServer.request) : bool :=
  match q with
  | FileServer.Issue e _ _ => String.eqb (generateLicenseKey "TEST" e) k
  | _ => false
  end.

(** The request writes the license file and the write fails after the
    file was opened (and truncated). *)
Definition interrupts_write (q : FileServer.request) : bool :=
  match q with
  | FileServer.Issue _ _ FileServer.WriteInterrupted
  | FileServer.Activate _ _ _ FileServer.WriteInterrupted => true
  | _ => false
  end.

(** No suspended activation awaits a write of the record [k]. *)
Definition no_activation_in_flight (k : string) (ws : list DocServer.waiting) : bool :=
  forallb (fun w => match w with
                    | DocServer.ActivationSave k' _ _ => negb (String.eqb k' k)
                    | DocServer.RetrySave _ _ => true
                    end) ws.

(** Activate and Verify as the specification words them (section 4.2),
    over a store of records: the reference the handlers are compared
    with. *)
Definition spec_activate (m : gmap string License) (k d now : string)
    : gmap string License * outcome :=
  match m !! k with
  | None => (m, NotFound)
  | Some r =>
      if activated r then
        if bool_decide (deviceId r = Some d) then (m, AlreadyActiveSameDevice)
        else (m, DeviceConflict)
      else (<[k := activate_record r d now]> m, Activated)
  end.

Definition spec_verify (m : gmap string License) (k d : string) : outcome :=
  match m !! k with
  | None => NotFound
  | Some r =>
      if negb (activated r) then NotActivated
      else if bool_decide (deviceId r = Some d) then Valid
      else DeviceMismatch
  end.

(* ================================================================== *)
(** ** Concrete inputs used by the examples below *)

Definition demo_bytes : list Byte.byte :=
  [Byte.xaa; Byte.xbb; Byte.xcc; Byte.xdd; Byte.x11; Byte.x22;
   Byte.x33; Byte.x44; Byte.x55; Byte.x66; Byte.x77; Byte.x88].

Definition demo_key : string := "TEST-AABBCCDD-11223344-55667788".

(** Issue a key, then activate it for device-1. *)
Definition demo_activated : FileServer.FState :=
  FileServer.run FileServer.initial
    [FileServer.Issue (RandomBytes demo_bytes) "2026-10-19T10:00:00.000Z" FileServer.WriteOk;
     FileServer.Activate (Some demo_key) (Some "device-1") "2026-10-19T10:05:00.000Z"
       FileServer.WriteOk].

(** The same in the document store: the activation reads the pending
    record, then its save runs. *)
Definition demo_doc_events : list DocServer.event :=
  [DocServer.Issue true true (RandomBytes demo_bytes) (RandomBytes demo_bytes)
     "2026-10-19T10:00:00.000Z" "mgx3k1a0";
   DocServer.Activate true (Some demo_key) (Some "device-1") "2026-10-19T10:05:00.000Z";
   DocServer.Resume 0 true].

Definition demo_doc_activated : DocServer.store :=
  DocServer.db (DocServer.run DocServer.initial demo_doc_events).

(** Two activations of the issued key, for device-1 and device-2, both
    read the pending record before either save runs. *)
Definition race_events : list DocServer.event :=
  [DocServer.Issue true true (RandomBytes demo_bytes) (RandomBytes demo_bytes)
     "2026-10-19T10:00:00.000Z" "mgx3k1a0";
   DocServer.Activate true (Some demo_key) (Some "device-1") "2026-10-19T10:05:00.000Z";
   DocServer.Activate true (Some demo_key) (Some "device-2") "2026-10-19T10:05:00.010Z"].

(* ================================================================== *)
(** ** Lemmas on the key generator *)

Lemma prefix_app (p s : string) : String.prefix p (p +:+ s) = true.
Proof.
  induction p as [|c p IH]; [destruct s; reflexivity|].
  simpl. destruct (ascii_dec c c) as [_|n]; [exact IH | congruence].
Qed.

Lemma string_length_app (p s : string) :
  String.length (p +:+ s) = String.length p + String.length s.
Proof. induction p as [|c p IH]; simpl; [reflexivity | rewrite IH; reflexivity]. Qed.

Lemma substring_0_all (s : string) (m : nat) :
  String.length s <= m -> String.substring 0 m s = s.
Proof.
  revert m; induction s as [|c s IH]; intros m Hm; simpl in *.
  - destruct m; reflexivity.
  - destruct m as [|m]; [lia|]. f_equal. apply IH. lia.
Qed.

Lemma substring_after_prefix (p s : string) :
  String.substring (String.length p) (String.length (p +:+ s)) (p +:+ s) = s.
Proof.
  assert (Hgen : forall m, String.length s <= m ->
            String.substring (String.length p) m (p +:+ s) = s).
  { induction p as [|c p IH]; intros m Hm; simpl.
    - apply substring_0_all. exact Hm.
    - apply IH. exact Hm. }
  apply Hgen. rewrite string_length_app. lia.
Qed.

Lemma hex_hi_upper (b : Byte.byte) :
  is_upper_hex (js_upper_char (hex_digit (Byte.to_N b / 16))) = true.
Proof. destruct b; vm_compute; reflexivity. Qed.

Lemma hex_lo_upper (b : Byte.byte) :
  is_upper_hex (js_upper_char (hex_digit (Byte.to_N b mod 16))) = true.
Proof. destruct b; vm_compute; reflexivity. Qed.

Lemma las_app (a b : string) :
  String.list_ascii_of_string (a +:+ b)
  = String.list_ascii_of_string a ++ String.list_ascii_of_string b.
Proof. induction a as [|c a IH]; simpl; [reflexivity | rewrite IH; reflexivity]. Qed.

Lemma las_substring (n m : nat) (s : string) :
  String.list_ascii_of_string (String.substring n m s)
  = take m (drop n (String.list_ascii_of_string s)).
Proof.
  revert n m; induction s as [|c s IH]; intros [|n] [|m]; simpl;
    rewrite ?IH; try reflexivity.
Qed.

Lemma forallb_take {A} (f : A -> bool) (n : nat) (l : list A) :
  forallb f l = true -> forallb f (take n l) = true.
Proof.
  revert n; induction l as [|x l IH]; intros [|n] H; simpl in *; try reflexivity.
  apply andb_prop in H as [H1 H2]. rewrite H1. simpl. apply IH. exact H2.
Qed.

Lemma forallb_drop {A} (f : A -> bool) (n : nat) (l : list A) :
  forallb f l = true -> forallb f (drop n l) = true.
Proof.
  revert n; induction l as [|x l IH]; intros [|n] H; simpl in *; try exact H.
  apply andb_prop in H as [_ H2]. apply IH. exact H2.
Qed.

Lemma upper_hex_of_bytes (bs : list Byte.byte) :
  forallb is_upper_hex
    (String.list_ascii_of_string (js_toUpperCase (hex_of_bytes bs))) = true
  /\ length (String.list_ascii_of_string (js_toUpperCase (hex_of_bytes bs)))
     = 2 * length bs.
Proof.
  induction bs as [|b bs [IH1 IH2]]; simpl; [split; reflexivity|].
  rewrite hex_hi_upper, hex_lo_upper, IH1, IH2. split; [reflexivity | lia].
Qed.

(** A hexadecimal section cut out of the uppercased hex string. *)
Lemma hex_section (bs : list Byte.byte) (k : nat) :
  k + 8 <= 2 * length bs ->
  let l := String.list_ascii_of_string
             (js_substr (js_toUpperCase (hex_of_bytes bs)) k 8) in
  length l = 8 /\ forallb is_upper_hex l = true.
Proof.
  intros Hk l. subst l. unfold js_substr. rewrite las_substring.
  destruct (upper_hex_of_bytes bs) as [H1 H2]. split.
  - rewrite length_take, length_drop. lia.
  - apply forallb_take, forallb_drop, H1.
Qed.

Lemma dash_segment_app (l r : list ascii) :
  length l = 8 -> forallb is_upper_hex l = true ->
  dash_segment ("-"%char :: l ++ r) = Some r.
Proof.
  intros Hl Hf. unfold dash_segment.
  rewrite take_app_length' by (symmetry; exact Hl). rewrite drop_app_length' by (symmetry; exact Hl).
  rewrite Hl, Hf. reflexivity.
Qed.

Lemma key_format_sections (prefix s1 s2 s3 : string) :
  length (String.list_ascii_of_string s1) = 8 ->
  forallb is_upper_hex (String.list_ascii_of_string s1) = true ->
  length (String.list_ascii_of_string s2) = 8 ->
  forallb is_upper_hex (String.list_ascii_of_string s2) = true ->
  length (String.list_ascii_of_string s3) = 8 ->
  forallb is_upper_hex (String.list_ascii_of_string s3) = true ->
  key_format prefix
    (prefix +:+ "-" +:+ s1 +:+ "-" +:+ s2 +:+ "-" +:+ s3) = true.
Proof.
  intros L1 F1 L2 F2 L3 F3. unfold key_format.
  rewrite prefix_app, substring_after_prefix, !las_app.
  cbn [String.list_ascii_of_string app].
  rewrite dash_segment_app by assumption. cbn [mbind option_bind].
  rewrite dash_segment_app by assumption. cbn [mbind option_bind].
  rewrite <- (app_nil_r (String.list_ascii_of_string s3)).
  rewrite dash_segment_app by assumption. reflexivity.
Qed.

Lemma key_format_primary (prefix : string) (bs : list Byte.byte) :
  12 <= length bs ->
  key_format prefix (generateLicenseKey prefix (RandomBytes bs)) = true.
Proof.
  intros Hlen. simpl.
  destruct (hex_section bs 0) as [L1 F1]; [lia|].
  destruct (hex_section bs 8) as [L2 F2]; [lia|].
  destruct (hex_section bs 16) as [L3 F3]; [lia|].
  apply key_format_sections; assumption.
Qed.

Lemma upper_base36 (c : ascii) :
  is_base36_digit c = true -> is_upper_alnum (js_upper_char c) = true.
Proof. destruct c as [[][][][][][][][]]; vm_compute; congruence. Qed.

Lemma las_upper (s : string) :
  String.list_ascii_of_string (js_toUpperCase s)
  = map js_upper_char (String.list_ascii_of_string s).
Proof. induction s as [|c s IH]; simpl; [reflexivity | rewrite IH; reflexivity]. Qed.

Lemma length_las (s : string) :
  length (String.list_ascii_of_string s) = String.length s.
Proof. induction s as [|c s IH]; simpl; [reflexivity | rewrite IH; reflexivity]. Qed.

Lemma length_substring (n m : nat) (s : string) :
  String.length (String.substring n m s) <= m.
Proof. rewrite <- length_las, las_substring, length_take. lia. Qed.

Lemma fallback_length (r : string) :
  String.length (js_toUpperCase (js_substring r 2 (Some 10%Z))) <= 8.
Proof.
  rewrite <- length_las, las_upper, length_map, length_las.
  unfold js_substring. cbv beta zeta. cbn [default].
  etransitivity; [apply length_substring|]. unfold id. lia.
Qed.

(** The fallback section: at most eight base-36 digits, uppercased. *)
Lemma fallback_section (ds : string) :
  forallb is_base36_digit (String.list_ascii_of_string ds) = true ->
  let t := js_toUpperCase (js_substring ("0." +:+ ds) 2 (Some 10%Z)) in
  String.length t <= 8 /\
  forallb is_upper_alnum (String.list_ascii_of_string t) = true.
Proof.
  intros Hds t. split; [apply fallback_length|]. subst t.
  rewrite las_upper. unfold js_substring. cbv beta zeta. cbn [default]. unfold id.
  rewrite string_length_app. cbn [String.length].
  match goal with
  | |- context [String.substring (Z.to_nat ?lo) ?m _] =>
      replace (Z.to_nat lo) with 2 by lia; generalize m
  end.
  intros m. destruct m as [|m]; [destruct ds; reflexivity|].
  rewrite las_substring, las_app. simpl skipn. rewrite drop_0.
  apply forallb_take with (n := S m) in Hds.
  revert Hds. generalize (take (S m) (String.list_ascii_of_string ds)).
  intros l. induction l as [|c l IH]; simpl; [reflexivity|].
  intros H. apply andb_prop in H as [H1 H2].
  rewrite (upper_base36 c H1). simpl. apply IH. exact H2.
Qed.

Lemma dash_segment_short (c : ascii) (l : list ascii) :
  length l <= 8 -> dash_segment (c :: l) ≫= dash_segment = None.
Proof.
  intros Hl. destruct (dash_segment (c :: l)) as [r|] eqn:E; [|reflexivity].
  cbn [mbind option_bind]. unfold dash_segment in E.
  destruct (_ && _ && _) in E; [|discriminate].
  injection E as <-. rewrite drop_ge by lia. reflexivity.
Qed.

Lemma key_format_fallback (prefix r : string) :
  key_format prefix (generateLicenseKey prefix (RandomBytesThrows r)) = false.
Proof.
  unfold key_format; simpl generateLicenseKey.
  rewrite prefix_app, substring_after_prefix, las_app.
  cbn [String.list_ascii_of_string app].
  rewrite dash_segment_short; [reflexivity|].
  rewrite length_las. apply fallback_length.
Qed.


(** C6 (counterexample): when [crypto.randomBytes] throws, the key is built
    from [Math.random().toString(36)]; for [Math.random() = 0.5] that
    string is ["0.i"] and the key is ["TEST-I"], which does not have the
    shape [PREFIX-[0-9A-F]{8}-[0-9A-F]{8}-[0-9A-F]{8}]. *)
Lemma generateLicenseKey_fallback_cex :
  generateLicenseKey "TEST" (RandomBytesThrows "0.i") = "TEST-I" /\
  key_format "TEST" (generateLicenseKey "TEST" (RandomBytesThrows "0.i")) = false.
Proof. split; vm_compute; reflexivity. Qed.

(** C6 (amended): a key from the primary path (at least 12 random bytes, as
    both generators draw) matches [PREFIX-[0-9A-F]{8}-[0-9A-F]{8}-[0-9A-F]{8}];
    a key from the fallback is the prefix, a hyphen and one section of at
    most eight characters, the uppercased base-36 digits of
    [Math.random()] (so in [0-9A-Z]), and never matches that format. *)
Theorem generateLicenseKey_format :
  (forall (prefix : string) (bs : list Byte.byte),
      12 <= length bs ->
      key_format prefix (generateLicenseKey prefix (RandomBytes bs)) = true) /\
  (forall prefix r : string,
      exists t, generateLicenseKey prefix (RandomBytesThrows r) = prefix +:+ "-" +:+ t /\
                String.length t <= 8 /\
                key_format prefix (generateLicenseKey prefix (RandomBytesThrows r)) = false) /\
  (forall prefix ds : string,
      forallb is_base36_digit (String.list_ascii_of_string ds) = true ->
      exists t, generateLicenseKey prefix (RandomBytesThrows ("0." +:+ ds))
                  = prefix +:+ "-" +:+ t /\
                forallb is_upper_alnum (String.list_ascii_of_string t) = true).
Proof.
  split; [exact key_format_primary|]. split.
  - intros prefix r. eexists. split; [reflexivity|].
    split; [apply fallback_length | apply key_format_fallback].
  - intros prefix ds Hds. eexists. split; [reflexivity|].
    apply (fallback_section ds Hds).
Qed.

Lemma generateLicenseKey_format_witness :
  key_format "TEST" (generateLicenseKey "TEST" (RandomBytes demo_bytes)) = true /\
  (exists t, generateLicenseKey "TEST" (RandomBytesThrows ("0." +:+ "4fzyo82mvyr"))
               = "TEST" +:+ "-" +:+ t /\
             forallb is_upper_alnum (String.list_ascii_of_string t) = true).
Proof.
  split.
  - apply (proj1 generateLicenseKey_format). simpl. lia.
  - apply (proj2 (proj2 generateLicenseKey_format)). vm_compute. reflexivity.
Defined.

(* ================================================================== *)
(** ** Lemmas on the two servers *)

Lemma js_substring_negative_start (s : string) :
  js_substring s (-4) None = s.
Proof.
  unfold js_substring. cbv beta zeta. cbn [default].
  replace (Z.to_nat (Z.min (Z.max 0 (Z.min (-4) (Z.of_nat (String.length s))))
                           (Z.max 0 (Z.min (Z.of_nat (String.length s))
                                            (Z.of_nat (String.length s))))))
    with 0 by lia.
  apply substring_0_all. lia.
Qed.

Lemma test_key_shape (e : entropy) :
  exists rest, generateLicenseKey "TEST" e = "TEST-" +:+ rest.
Proof. destruct e; eexists; reflexivity. Qed.

(** A key starting with ["TEST-"] names no inherited property. *)
Lemma js_lookup_test_key h (m : gmap string License) (rest : string) :
  FileServer.js_lookup h m ("TEST-" +:+ rest)
  = match m !! ("TEST-" +:+ rest) with
    | Some r => FileServer.TRecord r
    | None => FileServer.TUndefined
    end.
Proof.
  unfold FileServer.js_lookup. destruct (m !! _); [reflexivity|].
  destruct (FileServer.proto_props h) as [[d t]|]; reflexivity.
Qed.

Lemma js_lookup_own h (m : gmap string License) k r :
  m !! k = Some r -> FileServer.js_lookup h m k = FileServer.TRecord r.
Proof. intros E. unfold FileServer.js_lookup. rewrite E. reflexivity. Qed.

Lemma new_test_license_inv now : license_inv (new_test_license now).
Proof. unfold license_inv; simpl; tauto. Qed.

Lemma activate_record_inv r d now : license_inv (activate_record r d now).
Proof. unfold license_inv; simpl; split; discriminate. Qed.

Lemma js_lookup_TRecord h (m : gmap string License) k r :
  FileServer.js_lookup h m k = FileServer.TRecord r -> m !! k = Some r.
Proof.
  unfold FileServer.js_lookup. destruct (m !! k); [congruence|].
  repeat case_match; discriminate.
Qed.

(** A field the request carries is read as it is. *)
Lemma body_field_some h name v : FileServer.body_field h name (Some v) = Some v.
Proof. reflexivity. Qed.

(** With nothing assigned on [Object.prototype], a missing field stays
    missing. *)
Lemma body_field_plain h name x :
  FileServer.proto_props h = None -> FileServer.body_field h name x = x.
Proof. intros Hp. destruct x; [reflexivity|]. simpl. rewrite Hp. reflexivity. Qed.

(** The file after an activation request: untouched, rewritten with the
    map that was read, left unparsable by an interrupted write, or
    rewritten with one pending record activated. *)
Lemma activate_license_file (s : FileServer.FState) lk dv now w :
  let f' := FileServer.lic_file (FileServer.activate_license s lk dv now w).1 in
  let m := FileServer.getLicenses (FileServer.lic_file s) in
  f' = FileServer.lic_file s \/ f' = FileServer.FileJson m \/
  (f' = FileServer.FileUnreadable /\ w = FileServer.WriteInterrupted) \/
  exists k0 r d0, m !! k0 = Some r /\ activated r = false /\
                  f' = FileServer.FileJson (<[k0 := activate_record r d0 now]> m).
Proof.
  unfold FileServer.activate_license, FileServer.saveLicenses.
  repeat case_match; simplify_eq/=; auto.
  all: right; right; right; eexists _, _, _; split; [eapply js_lookup_TRecord; eassumption|].
  all: split; [eassumption | reflexivity].
Qed.

(** Verify is a pure read in both servers. *)
Lemma file_verify_state (s : FileServer.FState) lk dv :
  (FileServer.verify_license s lk dv).1 = s.
Proof. unfold FileServer.verify_license. repeat case_match; reflexivity. Qed.

Lemma doc_verify_state (db : DocServer.store) u lk dv :
  (DocServer.verify_license db u lk dv).1 = db.
Proof. unfold DocServer.verify_license. repeat case_match; reflexivity. Qed.

(** What an activation leaves suspended: the save of a record that was
    pending when it was read. *)
Lemma activate_start_await (db : DocServer.store) u lk dv now w :
  DocServer.activate_license_start db u lk dv now = DocServer.Await w ->
  exists k d r, w = DocServer.ActivationSave k d now /\ db !! k = Some r /\ activated r = false.
Proof.
  unfold DocServer.activate_license_start. intros E.
  destruct lk as [k|], dv as [d|]; try discriminate E.
  destruct (js_falsy_field (Some k) || js_falsy_field (Some d)); [discriminate E|].
  destruct u; [|discriminate E]. cbn [negb] in E.
  destruct (db !! k) as [r|] eqn:Hr; [|discriminate E].
  destruct (activated r) eqn:Ha; [destruct (FileServer.js_strict_neq _ _); discriminate E|].
  injection E as <-. exists k, d, r. auto.
Qed.

(** The start of an issuance leaves at most the retry save suspended. *)
Lemma issue_start_await (db : DocServer.store) c ok e1 e2 now ts :
  match (DocServer.generate_test_license_start db c ok e1 e2 now ts).2 with
  | DocServer.Await (DocServer.ActivationSave _ _ _) => False
  | _ => True
  end.
Proof.
  unfold DocServer.generate_test_license_start. repeat case_match; simplify_eq/=; exact I.
Qed.

Lemma insert_new_keeps (db db' : DocServer.store) k k0 r r0 :
  db !! k = Some r -> DocServer.insert_new db k0 r0 = Some db' -> db' !! k = Some r.
Proof.
  unfold DocServer.insert_new. intros Hk E.
  destruct (db !! k0) eqn:E0; simplify_eq.
  rewrite lookup_insert_ne; [exact Hk|]. intros ->. congruence.
Qed.

(** Issuance never modifies a stored document. *)
Lemma doc_issue_start_keeps (db : DocServer.store) c ok e1 e2 now ts k r :
  db !! k = Some r ->
  (DocServer.generate_test_license_start db c ok e1 e2 now ts).1 !! k = Some r.
Proof.
  intros Hk. unfold DocServer.generate_test_license_start.
  repeat case_match; simplify_eq/=; eauto using insert_new_keeps.
Qed.

Lemma doc_retry_keeps (db : DocServer.store) nk now ok k r :
  db !! k = Some r -> (DocServer.resume db (DocServer.RetrySave nk now) ok).1 !! k = Some r.
Proof.
  intros Hk. unfold DocServer.resume.
  repeat case_match; simplify_eq/=; eauto using insert_new_keeps.
Qed.

Lemma forallb_delete {A} (f : A -> bool) (l : list A) (i : nat) :
  forallb f l = true -> forallb f (delete i l) = true.
Proof.
  revert i; induction l as [|x l IH]; intros [|i] H; simpl in *; try exact H.
  - apply andb_prop in H as [_ H]. exact H.
  - apply andb_prop in H as [H1 H2]. rewrite H1, (IH i H2). reflexivity.
Qed.

Lemma forallb_lookup {A} (f : A -> bool) (l : list A) (i : nat) (x : A) :
  forallb f l = true -> l !! i = Some x -> f x = true.
Proof.
  revert i; induction l as [|y l IH]; intros [|i] H E; simpl in *; try discriminate.
  - injection E as ->. apply andb_prop in H as [H _]. exact H.
  - apply andb_prop in H as [_ H]. exact (IH i H E).
Qed.

(** *** Invariants of stored records *)

Section StoredRecords.

Variable P : License -> Prop.
Hypothesis P_new : forall now, P (new_test_license now).
Hypothesis P_activate : forall r d now, P r -> P (activate_record r d now).

Lemma file_step_pres (s : FileServer.FState) (q : FileServer.request) :
  map_Forall (fun _ => P) (FileServer.getLicenses (FileServer.lic_file s)) ->
  map_Forall (fun _ => P) (FileServer.getLicenses (FileServer.lic_file (FileServer.step s q).1)).
Proof.
  intros H. destruct q as [e now w|lk dv now w|lk dv|]; simpl.
  - unfold FileServer.generate_test_license, FileServer.saveLicenses.
    destruct w; simpl; [| exact H | apply map_Forall_empty].
    apply map_Forall_insert_2; [apply P_new | exact H].
  - destruct (activate_license_file s lk dv now w)
      as [E|[E|[[E _]|(k0 & r0 & d0 & Hr0 & Ha0 & E)]]];
      rewrite E; simpl; try exact H; try apply map_Forall_empty.
    apply map_Forall_insert_2; [|exact H].
    apply P_activate. exact (map_Forall_lookup_1 _ _ _ _ H Hr0).
  - rewrite file_verify_state. exact H.
  - exact H.
Qed.

Lemma doc_step_pres (s : DocServer.DState) (ev : DocServer.event) :
  map_Forall (fun _ => P) (DocServer.db s) ->
  map_Forall (fun _ => P) (DocServer.db (DocServer.step s ev).1).
Proof.
  intros H. destruct s as [db ws]. cbn [DocServer.db] in H.
  destruct ev as [c ok e1 e2 now ts|u lk dv now|u lk dv|i ok]; cbn [DocServer.step DocServer.db DocServer.suspended].
  - unfold DocServer.generate_test_license_start, DocServer.insert_new.
    repeat (case_match; simplify_eq/=; try exact H).
    all: apply map_Forall_insert_2; [apply P_new | exact H].
  - destruct (DocServer.activate_license_start db u lk dv now); exact H.
  - exact H.
  - cbn [DocServer.suspended DocServer.db]. destruct (ws !! i) as [w|]; [|exact H].
    destruct w as [nk now|k d now]; unfold DocServer.resume, DocServer.insert_new;
      repeat (case_match; simplify_eq/=; try exact H).
    + apply map_Forall_insert_2; [apply P_new | exact H].
    + apply map_Forall_insert_2; [|exact H].
      apply P_activate.
      match goal with E : db !! k = Some _ |- _ => exact (map_Forall_lookup_1 _ _ _ _ H E) end.
Qed.

Lemma file_run_pres (s : FileServer.FState) (qs : list FileServer.request) :
  map_Forall (fun _ => P) (FileServer.getLicenses (FileServer.lic_file s)) ->
  map_Forall (fun _ => P) (FileServer.getLicenses (FileServer.lic_file (FileServer.run s qs))).
Proof.
  revert s; induction qs as [|q qs IH]; intros s H; simpl; [exact H|].
  apply IH, file_step_pres, H.
Qed.

Lemma doc_run_pres (s : DocServer.DState) (evs : list DocServer.event) :
  map_Forall (fun _ => P) (DocServer.db s) ->
  map_Forall (fun _ => P) (DocServer.db (DocServer.run s evs)).
Proof.
  revert s; induction evs as [|ev evs IH]; intros s H; simpl; [exact H|].
  apply IH, doc_step_pres, H.
Qed.

End StoredRecords.

(** C4: in every state reached from the initial one (an empty license
    file, resp. an empty collection) by any sequence of requests, with any
    interleaving of concurrent document-store requests and whatever writes
    fail, every stored record has [deviceId] unset if and only if
    [activated] is false. *)
Theorem deviceId_null_iff_not_activated :
  (forall qs : list FileServer.request,
      map_Forall (fun _ => license_inv)
        (FileServer.getLicenses
           (FileServer.lic_file (FileServer.run FileServer.initial qs)))) /\
  (forall evs : list DocServer.event,
      map_Forall (fun _ => license_inv) (DocServer.db (DocServer.run DocServer.initial evs))).
Proof.
  split; intros qs.
  - apply file_run_pres; [exact new_test_license_inv | intros; apply activate_record_inv |].
    apply map_Forall_empty.
  - apply doc_run_pres; [exact new_test_license_inv | intros; apply activate_record_inv |].
    apply map_Forall_empty.
Qed.

(** C5: activating a license that is already activated and bound to [d]
    sends no write and leaves the whole state as it was: with the same
    device the answer is the idempotent 200, with another device it is the
    403 conflict. *)
Theorem activate_when_activated_unchanged :
  (forall (s : FileServer.FState) (k d d' now : string) (w : FileServer.write_result)
          (r : License),
      String.eqb k "" = false -> String.eqb d' "" = false ->
      FileServer.getLicenses (FileServer.lic_file s) !! k = Some r ->
      activated r = true -> deviceId r = Some d ->
      FileServer.activate_license s (Some k) (Some d') now w
      = (s, if String.eqb d d' then AlreadyActiveSameDevice else DeviceConflict)) /\
  (forall (db : DocServer.store) (k d d' now : string) (r : License),
      String.eqb k "" = false -> String.eqb d' "" = false ->
      db !! k = Some r -> activated r = true -> deviceId r = Some d ->
      DocServer.activate_license db true (Some k) (Some d') now
      = (db, if String.eqb d d' then AlreadyActiveSameDevice else DeviceConflict)).
Proof.
  split.
  - intros s k d d' now w r Hk Hd E Ha Hb.
    unfold FileServer.activate_license. rewrite !body_field_some.
    simpl js_falsy_field. rewrite Hk, Hd. simpl.
    rewrite (js_lookup_own _ _ _ _ E). simpl. rewrite Ha, Hb. simpl.
    destruct (String.eqb d d'); reflexivity.
  - intros db k d d' now r Hk Hd E Ha Hb.
    unfold DocServer.activate_license, DocServer.activate_license_start.
    simpl js_falsy_field. rewrite Hk, Hd. simpl.
    rewrite E, Ha. unfold license_deviceId. rewrite Hb. simpl.
    destruct (String.eqb d d'); reflexivity.
Qed.

Lemma activate_when_activated_unchanged_witness :
  FileServer.activate_license demo_activated (Some demo_key) (Some "device-2")
    "2026-10-19T10:10:00.000Z" FileServer.WriteOk = (demo_activated, DeviceConflict) /\
  DocServer.activate_license demo_doc_activated true (Some demo_key) (Some "device-1")
    "2026-10-19T10:10:00.000Z" = (demo_doc_activated, AlreadyActiveSameDevice).
Proof.
  split.
  - apply (proj1 activate_when_activated_unchanged) with
      (d := "device-1")
      (r := activate_record (new_test_license "2026-10-19T10:00:00.000Z")
              "device-1" "2026-10-19T10:05:00.000Z");
      vm_compute; reflexivity.
  - apply (proj2 activate_when_activated_unchanged) with
      (d := "device-1")
      (r := activate_record (new_test_license "2026-10-19T10:00:00.000Z")
              "device-1" "2026-10-19T10:05:00.000Z");
      vm_compute; reflexivity.
Defined.

(** Missing or empty fields: the document-store handlers always answer
    400, the file-backed ones do as long as nothing has been assigned on
    [Object.prototype]; with both fields present and non-empty no handler
    answers 400. *)
Lemma missing_field_invalid_input_plain :
  (forall (s : FileServer.FState) (db : DocServer.store) (u : bool)
          (w : FileServer.write_result) (lk dv : option string) (now : string),
      FileServer.proto_props (FileServer.builtins s) = None ->
      js_falsy_field lk || js_falsy_field dv = true ->
      FileServer.activate_license s lk dv now w = (s, InvalidInput) /\
      FileServer.verify_license s lk dv = (s, InvalidInput) /\
      DocServer.activate_license db u lk dv now = (db, InvalidInput) /\
      DocServer.verify_license db u lk dv = (db, InvalidInput)) /\
  (forall (s : FileServer.FState) (db : DocServer.store) (u : bool)
          (w : FileServer.write_result) (lk dv : option string) (now : string),
      js_falsy_field lk || js_falsy_field dv = false ->
      status_code (FileServer.activate_license s lk dv now w).2 <> 400%Z /\
      status_code (FileServer.verify_license s lk dv).2 <> 400%Z /\
      status_code (DocServer.activate_license db u lk dv now).2 <> 400%Z /\
      status_code (DocServer.verify_license db u lk dv).2 <> 400%Z).
Proof.
  split.
  - intros s db u w lk dv now Hp H.
    unfold FileServer.activate_license, FileServer.verify_license,
      DocServer.activate_license, DocServer.activate_license_start,
      DocServer.verify_license.
    rewrite !body_field_plain by exact Hp.
    destruct lk as [k|], dv as [d|]; rewrite ?H; repeat split.
  - intros s db u w lk dv now H.
    destruct lk as [k|], dv as [d|]; simpl in H;
      rewrite ?orb_true_r in H; try discriminate H.
    unfold FileServer.activate_license, FileServer.verify_license,
      DocServer.activate_license, DocServer.activate_license_start,
      DocServer.verify_license, DocServer.resume.
    rewrite !body_field_some.
    cbn [js_falsy_field]. rewrite H. cbn [negb orb].
    repeat split; repeat (case_match; simplify_eq/=); discriminate.
Qed.

(** C8 (code bug): the file-backed handlers read the fields with
    [const { licenseKey, deviceId } = req.body], and [req.body] inherits
    from [Object.prototype].  Once an activation of ["__proto__"] has
    assigned [deviceId] there, a request without [deviceId] is not refused
    with 400: Verify answers 403 "not activated" for a pending key,
    Activate binds that key to the inherited device and answers 200, and
    Verify then answers 200 "valid".  The document-store server answers
    400. *)
Theorem missing_deviceId_read_from_prototype :
  let s1 := FileServer.run FileServer.initial
              [FileServer.Issue (RandomBytes demo_bytes) "2026-10-19T10:00:00.000Z"
                 FileServer.WriteOk;
               FileServer.Activate (Some "__proto__") (Some "device-1")
                 "2026-10-19T10:01:00.000Z" FileServer.WriteOk] in
  let s2 := (FileServer.activate_license s1 (Some demo_key) None
               "2026-10-19T10:05:00.000Z" FileServer.WriteOk).1 in
  FileServer.verify_license s1 (Some demo_key) None = (s1, NotActivated) /\
  (FileServer.activate_license s1 (Some demo_key) None
     "2026-10-19T10:05:00.000Z" FileServer.WriteOk).2 = Activated /\
  file_bound_to s2 demo_key "device-1" = true /\
  FileServer.verify_license s2 (Some demo_key) None = (s2, Valid) /\
  DocServer.activate_license demo_doc_activated true (Some demo_key) None
    "2026-10-19T10:05:00.000Z" = (demo_doc_activated, InvalidInput).
Proof. cbv zeta. split; [|split; [|split; [|split]]]; vm_compute; reflexivity. Qed.

(** C9 (counterexample): when the license file cannot be read, the admin
    listing does not answer 500: [getLicenses] catches the failure and the
    handler answers 200. *)
Lemma admin_read_failure_cex :
  status_code (FileServer.admin_licenses
                 (FileServer.mkFState FileServer.FileUnreadable ∅)).2 <> 500%Z.
Proof. vm_compute. discriminate. Qed.

(** C9 (amended): the admin listing always answers 200 with the mapping
    [getLicenses] returns: the persisted records when the file is readable
    JSON, and the empty mapping when reading or parsing fails; it never
    answers 500. *)
Theorem admin_listing_always_200 :
  forall s : FileServer.FState,
    FileServer.admin_licenses s
      = (s, Listing (FileServer.getLicenses (FileServer.lic_file s))) /\
    status_code (FileServer.admin_licenses s).2 = 200%Z /\
    (forall m, FileServer.lic_file s = FileServer.FileJson m ->
               FileServer.getLicenses (FileServer.lic_file s) = m) /\
    (FileServer.lic_file s = FileServer.FileUnreadable ->
     FileServer.getLicenses (FileServer.lic_file s) = ∅).
Proof.
  intros s. split; [reflexivity|]. split; [reflexivity|].
  split; [intros m E | intros E]; rewrite E; reflexivity.
Qed.

Lemma admin_listing_always_200_witness :
  FileServer.getLicenses (FileServer.lic_file (FileServer.mkFState FileServer.FileUnreadable ∅))
  = ∅.
Proof.
  apply (proj2 (proj2 (proj2 (admin_listing_always_200
                                (FileServer.mkFState FileServer.FileUnreadable ∅))))).
  reflexivity.
Defined.

(** C10: when the license file is unreadable or not JSON, [getLicenses]
    returns [{}]: Activate and Verify of any key the issuing endpoint
    produces answer 404 (not 500) and change nothing, and the admin
    listing answers 200 with the empty mapping. *)
Theorem unreadable_file_not_found :
  forall (s : FileServer.FState) (e : entropy) (d now : string) (w : FileServer.write_result),
    FileServer.lic_file s = FileServer.FileUnreadable ->
    String.eqb d "" = false ->
    let k := generateLicenseKey "TEST" e in
    FileServer.activate_license s (Some k) (Some d) now w = (s, NotFound) /\
    FileServer.verify_license s (Some k) (Some d) = (s, NotFound) /\
    status_code NotFound = 404%Z /\
    FileServer.admin_licenses s = (s, Listing ∅) /\
    status_code (FileServer.admin_licenses s).2 = 200%Z.
Proof.
  intros s e d now w Hf Hd k. subst k.
  destruct (test_key_shape e) as [rest ->].
  unfold FileServer.activate_license, FileServer.verify_license,
    FileServer.admin_licenses.
  rewrite !body_field_some.
  rewrite Hf. simpl js_falsy_field. rewrite Hd.
  rewrite orb_false_r.
  replace (String.eqb ("TEST-" +:+ rest) "") with false by reflexivity.
  cbn [negb orb FileServer.getLicenses].
  rewrite js_lookup_test_key, lookup_empty. repeat split.
Qed.

Lemma unreadable_file_not_found_witness :
  FileServer.verify_license (FileServer.mkFState FileServer.FileUnreadable ∅)
    (Some demo_key) (Some "device-1")
  = (FileServer.mkFState FileServer.FileUnreadable ∅, NotFound).
Proof.
  change demo_key with (generateLicenseKey "TEST" (RandomBytes demo_bytes)).
  apply (unreadable_file_not_found _ (RandomBytes demo_bytes) "device-1"
           "2026-10-19T10:10:00.000Z" FileServer.WriteOk); reflexivity.
Defined.

Lemma bound_to_insert_ne (m : gmap string License) k k0 r d :
  k0 <> k -> bound_to (<[k0 := r]> m) k d = bound_to m k d.
Proof. intros Hne. unfold bound_to. rewrite lookup_insert_ne by exact Hne. reflexivity. Qed.

Lemma bound_to_activated (m : gmap string License) k d :
  bound_to m k d = true -> exists r, m !! k = Some r /\ activated r = true.
Proof.
  unfold bound_to. destruct (m !! k) as [r|]; [|discriminate].
  intros H. apply andb_prop in H as [H _]. eauto.
Qed.

Lemma bound_to_same (m m' : gmap string License) k d r :
  m !! k = Some r -> m' !! k = Some r -> bound_to m' k d = bound_to m k d.
Proof. intros E E'. unfold bound_to. rewrite E, E'. reflexivity. Qed.

(** An activated record of the file stays as it is under a request that
    does not issue its key and does not interrupt a write. *)
Lemma file_step_keeps_activated (s : FileServer.FState) (q : FileServer.request) k r :
  issues_key k q = false -> interrupts_write q = false ->
  FileServer.getLicenses (FileServer.lic_file s) !! k = Some r -> activated r = true ->
  FileServer.getLicenses (FileServer.lic_file (FileServer.step s q).1) !! k = Some r.
Proof.
  intros Hq Hw Hr Ha. destruct q as [e now w|lk dv now w|lk dv|]; simpl.
  - simpl in Hq. apply String.eqb_neq in Hq.
    unfold FileServer.generate_test_license, FileServer.saveLicenses.
    destruct w; simpl; [| exact Hr | discriminate Hw].
    rewrite lookup_insert_ne by exact Hq. exact Hr.
  - destruct (activate_license_file s lk dv now w)
      as [E|[E|[[E ->]|(k0 & r0 & d0 & Hr0 & Ha0 & E)]]];
      rewrite E; simpl; try exact Hr; [discriminate Hw|].
    destruct (String.eq_dec k0 k) as [->|Hne]; [congruence|].
    rewrite lookup_insert_ne by exact Hne. exact Hr.
  - rewrite file_verify_state. exact Hr.
  - exact Hr.
Qed.

Lemma file_run_keeps_activated (s : FileServer.FState) (qs : list FileServer.request) k r :
  existsb (fun q => issues_key k q || interrupts_write q) qs = false ->
  FileServer.getLicenses (FileServer.lic_file s) !! k = Some r -> activated r = true ->
  FileServer.getLicenses (FileServer.lic_file (FileServer.run s qs)) !! k = Some r.
Proof.
  revert s; induction qs as [|q qs IH]; intros s Hq Hr Ha; simpl; [exact Hr|].
  simpl in Hq. apply orb_false_iff in Hq as [Hq1 Hq2].
  apply orb_false_iff in Hq1 as [Hi Hw].
  apply IH; [exact Hq2 | apply file_step_keeps_activated | ]; assumption.
Qed.

(** An activated document with no activation of its key in flight stays as
    it is under any event, and no activation of its key gets in flight. *)
Lemma doc_step_keeps_activated (s : DocServer.DState) (ev : DocServer.event) k r :
  DocServer.db s !! k = Some r -> activated r = true ->
  no_activation_in_flight k (DocServer.suspended s) = true ->
  DocServer.db (DocServer.step s ev).1 !! k = Some r /\
  no_activation_in_flight k (DocServer.suspended (DocServer.step s ev).1) = true.
Proof.
  destruct s as [db ws]. cbn [DocServer.db DocServer.suspended]. intros Hr Ha Hf.
  destruct ev as [c ok e1 e2 now ts|u lk dv now|u lk dv|i ok]; cbn [DocServer.step DocServer.db DocServer.suspended].
  - pose proof (doc_issue_start_keeps db c ok e1 e2 now ts k r Hr) as K.
    pose proof (issue_start_await db c ok e1 e2 now ts) as A.
    destruct (DocServer.generate_test_license_start db c ok e1 e2 now ts) as [db' [o|w]];
      cbn [fst snd DocServer.db DocServer.suspended] in *; split; try assumption.
    destruct w as [nk t|]; [exact Hf | contradiction].
  - destruct (DocServer.activate_license_start db u lk dv now) as [o|w] eqn:E;
      cbn [fst DocServer.db DocServer.suspended]; split; try assumption.
    destruct (activate_start_await _ _ _ _ _ _ E) as (k0 & d0 & r0 & -> & Hr0 & Ha0).
    unfold no_activation_in_flight in *. cbn [forallb]. rewrite Hf, andb_true_r.
    destruct (String.eqb_spec k0 k) as [->|]; [congruence | reflexivity].
  - cbn [fst DocServer.db DocServer.suspended]. split; assumption.
  - destruct (ws !! i) as [w|] eqn:Ew; cbn [fst DocServer.db DocServer.suspended];
      [|split; assumption].
    pose proof (forallb_lookup _ _ _ _ Hf Ew) as Hw. cbv beta in Hw.
    destruct (DocServer.resume db w ok) as [db' o] eqn:E.
    cbn [fst DocServer.db DocServer.suspended].
    split; [|apply forallb_delete, Hf].
    destruct w as [nk t|k0 d0 t].
    + pose proof (doc_retry_keeps db nk t ok k r Hr) as K. rewrite E in K. exact K.
    + apply negb_true_iff, String.eqb_neq in Hw.
      revert E. unfold DocServer.resume.
      repeat case_match; intros E; simplify_eq/=; try assumption.
      rewrite lookup_insert_ne by exact Hw. exact Hr.
Qed.

Lemma doc_run_keeps_activated (s : DocServer.DState) (evs : list DocServer.event) k r :
  DocServer.db s !! k = Some r -> activated r = true ->
  no_activation_in_flight k (DocServer.suspended s) = true ->
  DocServer.db (DocServer.run s evs) !! k = Some r /\
  no_activation_in_flight k (DocServer.suspended (DocServer.run s evs)) = true.
Proof.
  revert s; induction evs as [|ev evs IH]; intros s Hr Ha Hf; simpl; [split; assumption|].
  destruct (doc_step_keeps_activated s ev k r Hr Ha Hf) as [Hr' Hf'].
  apply IH; assumption.
Qed.

(** C3 (counterexample): the binding of a key can change.
    - Document store: two activations of a pending key, for device-1 and
      device-2, both read the record before either save runs.  Both answer
      200; the first save binds the key to device-1 and the second rebinds
      it to device-2.
    - File: after [demo_key] was issued and bound to device-1, an issuance
      of another key whose write fails after the file was opened leaves an
      unparsable file, and the binding is gone.
    - File: a second issuance that draws the same random bytes generates
      [demo_key] again and replaces the record with a pending one. *)
Lemma device_binding_changes_cex :
  let s0 := DocServer.run DocServer.initial race_events in
  let s1 := (DocServer.step s0 (DocServer.Resume 1 true)).1 in
  (DocServer.step s0 (DocServer.Resume 1 true)).2 = Some Activated /\
  bound_to (DocServer.db s1) demo_key "device-1" = true /\
  (DocServer.step s1 (DocServer.Resume 0 true)).2 = Some Activated /\
  bound_to (DocServer.db (DocServer.step s1 (DocServer.Resume 0 true)).1) demo_key "device-2"
    = true /\
  file_bound_to demo_activated demo_key "device-1" = true /\
  issues_key demo_key
    (FileServer.Issue (RandomBytesThrows "0.4fzyo82mvyr") "2026-10-19T11:00:00.000Z"
       FileServer.WriteInterrupted) = false /\
  file_bound_to
    (FileServer.run demo_activated
       [FileServer.Issue (RandomBytesThrows "0.4fzyo82mvyr") "2026-10-19T11:00:00.000Z"
          FileServer.WriteInterrupted])
    demo_key "device-1" = false /\
  FileServer.getLicenses
    (FileServer.lic_file
       (FileServer.run demo_activated
          [FileServer.Issue (RandomBytes demo_bytes) "2026-10-19T11:00:00.000Z"
             FileServer.WriteOk]))
    !! demo_key = Some (new_test_license "2026-10-19T11:00:00.000Z").
Proof.
  cbv zeta.
  split; [|split; [|split; [|split; [|split; [|split; [|split]]]]]]; vm_compute; reflexivity.
Qed.

(** C3 (amended): Verify never changes a binding, and neither does an
    Activate that finds the record already activated.
    - Document store: a suspended activation that read the record while it
      was pending writes its own device when its save runs, whatever the
      record holds by then.  Once no activation of the key is in flight,
      the binding is permanent under every interleaving of requests.
    - File: the binding lasts as long as no issuance generates the same
      key and no write fails after the file was opened.  An issuance of the
      key replaces the record with a pending one, and an interrupted write
      leaves a file that reads as empty. *)
Theorem device_binding_permanent :
  (forall (s : DocServer.DState) (evs : list DocServer.event) (k d : string),
      bound_to (DocServer.db s) k d = true ->
      no_activation_in_flight k (DocServer.suspended s) = true ->
      bound_to (DocServer.db (DocServer.run s evs)) k d = true) /\
  (forall (db : DocServer.store) (k d now : string) (r : License),
      db !! k = Some r ->
      DocServer.resume db (DocServer.ActivationSave k d now) true
        = (<[k := activate_record r d now]> db, Activated) /\
      bound_to (<[k := activate_record r d now]> db) k d = true) /\
  (forall (s : FileServer.FState) (qs : list FileServer.request) (k d : string),
      existsb (fun q => issues_key k q || interrupts_write q) qs = false ->
      file_bound_to s k d = true ->
      file_bound_to (FileServer.run s qs) k d = true) /\
  (forall (s : FileServer.FState) (e : entropy) (now : string),
      FileServer.getLicenses
        (FileServer.lic_file (FileServer.generate_test_license s e now FileServer.WriteOk).1)
        !! generateLicenseKey "TEST" e = Some (new_test_license now)) /\
  (forall (s : FileServer.FState) (e : entropy) (now : string),
      FileServer.getLicenses
        (FileServer.lic_file
           (FileServer.generate_test_license s e now FileServer.WriteInterrupted).1) = ∅).
Proof.
  split; [|split; [|split; [|split]]].
  - intros s evs k d H.
    destruct (bound_to_activated _ _ _ H) as (r & Hr & Ha). intros Hf.
    destruct (doc_run_keeps_activated s evs k r Hr Ha Hf) as [Hr' _].
    rewrite (bound_to_same _ _ _ _ _ Hr Hr'). exact H.
  - intros db k d now r Hr. unfold DocServer.resume. cbn [negb]. rewrite Hr.
    split; [reflexivity|]. unfold bound_to. rewrite lookup_insert_eq. cbn.
    apply bool_decide_eq_true_2. reflexivity.
  - intros s qs k d Hq H. unfold file_bound_to in *.
    destruct (FileServer.lic_file s) as [m|] eqn:Ef; [|discriminate].
    destruct (bound_to_activated _ _ _ H) as (r & Hr & Ha).
    assert (Hr0 : FileServer.getLicenses (FileServer.lic_file s) !! k = Some r)
      by (rewrite Ef; exact Hr).
    pose proof (file_run_keeps_activated s qs k r Hq Hr0 Ha) as Hr'.
    destruct (FileServer.lic_file (FileServer.run s qs)) as [m'|];
      [|cbn [FileServer.getLicenses] in Hr'; rewrite lookup_empty in Hr'; discriminate].
    rewrite (bound_to_same _ _ _ _ _ Hr Hr'). exact H.
  - intros s e now. simpl. apply lookup_insert_eq.
  - intros s e now. reflexivity.
Qed.

Lemma device_binding_permanent_witness :
  bound_to
    (DocServer.db (DocServer.run (DocServer.run DocServer.initial demo_doc_events)
       [DocServer.Activate true (Some demo_key) (Some "device-2") "2026-10-19T11:00:00.000Z";
        DocServer.Issue true true (RandomBytes demo_bytes) (RandomBytes demo_bytes)
          "2026-10-19T11:01:00.000Z" "mgx4b2c9";
        DocServer.Resume 0 true]))
    demo_key "device-1" = true /\
  file_bound_to
    (FileServer.run demo_activated
       [FileServer.Verify (Some demo_key) (Some "device-2");
        FileServer.Activate (Some demo_key) (Some "device-2") "2026-10-19T10:10:00.000Z"
          FileServer.WriteOk;
        FileServer.Issue (RandomBytesThrows "0.4fzyo82mvyr") "2026-10-19T10:11:00.000Z"
          FileServer.WriteOpenFailed])
    demo_key "device-1" = true.
Proof.
  split.
  - apply (proj1 device_binding_permanent); vm_compute; reflexivity.
  - apply (proj1 (proj2 (proj2 device_binding_permanent))); vm_compute; reflexivity.
Defined.

(** C7 (counterexample): the file-backed issuing endpoint has no collision
    check: an issuance that generates the key of an existing, activated
    record answers 201 with that same key and overwrites the record with a
    pending one. *)
Lemma issue_collision_overwrites_cex :
  FileServer.getLicenses (FileServer.lic_file demo_activated) !! demo_key
    = Some (activate_record (new_test_license "2026-10-19T10:00:00.000Z")
              "device-1" "2026-10-19T10:05:00.000Z") /\
  (FileServer.step demo_activated
     (FileServer.Issue (RandomBytes demo_bytes) "2026-10-19T11:00:00.000Z" FileServer.WriteOk)).2
    = Issued demo_key /\
  FileServer.getLicenses
    (FileServer.lic_file
       (FileServer.step demo_activated
          (FileServer.Issue (RandomBytes demo_bytes) "2026-10-19T11:00:00.000Z"
             FileServer.WriteOk)).1)
    !! demo_key = Some (new_test_license "2026-10-19T11:00:00.000Z").
Proof. split; [|split]; vm_compute; reflexivity. Qed.

(** C7 (amended): in the document-store server, when the generated key is
    already stored, issuance retries once, with a new key from the
    generator whose prefix starts with ["TEST-"].  The retry stores a new
    pending record under that key and answers 201 with it when the key is
    free at the time of the save; when the key is taken by then, or the
    database rejects the save, it answers 500 and writes nothing.  A first
    save the database rejects for another reason also answers 500 and
    writes nothing.  Issuance never modifies a stored record.  The
    file-backed server checks nothing and writes the pending record under
    the generated key, replacing any record stored there. *)
Theorem issue_collision_handling :
  (forall (db : DocServer.store) (e1 e2 : entropy) (now ts : string),
      is_Some (db !! generateLicenseKey "TEST" e1) ->
      exists p, String.prefix "TEST-" p = true /\
        DocServer.generate_test_license_start db true true e1 e2 now ts
        = (db, DocServer.Await (DocServer.RetrySave (generateLicenseKey p e2) now))) /\
  (forall (db : DocServer.store) (newKey now : string) (ok : bool),
      DocServer.resume db (DocServer.RetrySave newKey now) ok
      = match ok, db !! newKey with
        | true, None => (<[newKey := new_test_license now]> db, Issued newKey)
        | _, _ => (db, ServerError)
        end) /\
  (forall (db : DocServer.store) (e1 e2 : entropy) (now ts : string),
      DocServer.generate_test_license_start db true false e1 e2 now ts
      = (db, DocServer.Respond ServerError)) /\
  (forall (db : DocServer.store) (c ok : bool) (e1 e2 : entropy) (now ts k : string)
          (r : License),
      db !! k = Some r ->
      (DocServer.generate_test_license_start db c ok e1 e2 now ts).1 !! k = Some r /\
      (forall newKey ok', (DocServer.resume db (DocServer.RetrySave newKey now) ok').1 !! k
                          = Some r)) /\
  (forall (s : FileServer.FState) (e : entropy) (now : string) (m : gmap string License),
      FileServer.lic_file s = FileServer.FileJson m ->
      FileServer.generate_test_license s e now FileServer.WriteOk
      = (FileServer.mkFState
           (FileServer.FileJson (<[generateLicenseKey "TEST" e := new_test_license now]> m))
           (FileServer.builtins s),
         Issued (generateLicenseKey "TEST" e))).
Proof.
  split; [|split; [|split; [|split]]].
  - intros db e1 e2 now ts [r Hr].
    exists ("TEST-" +:+ js_substring ts (-4) None). split; [apply prefix_app|].
    unfold DocServer.generate_test_license_start. cbn [negb].
    unfold DocServer.insert_new. rewrite Hr. reflexivity.
  - intros db newKey now ok. unfold DocServer.resume, DocServer.insert_new.
    destruct ok; [|reflexivity]. cbn [negb]. destruct (db !! newKey); reflexivity.
  - intros db e1 e2 now ts. reflexivity.
  - intros db c ok e1 e2 now ts k r Hk. split.
    + apply doc_issue_start_keeps, Hk.
    + intros newKey ok'. apply doc_retry_keeps, Hk.
  - intros s e now m Hf. unfold FileServer.generate_test_license. rewrite Hf. reflexivity.
Qed.

Lemma issue_collision_handling_witness :
  (exists p, String.prefix "TEST-" p = true /\
     DocServer.generate_test_license_start demo_doc_activated true true
       (RandomBytes demo_bytes) (RandomBytes demo_bytes) "2026-10-19T11:00:00.000Z" "mgx4b2c9"
     = (demo_doc_activated,
        DocServer.Await (DocServer.RetrySave (generateLicenseKey p (RandomBytes demo_bytes))
                           "2026-10-19T11:00:00.000Z"))) /\
  (DocServer.generate_test_license_start demo_doc_activated true true
     (RandomBytes demo_bytes) (RandomBytes demo_bytes) "2026-10-19T11:00:00.000Z" "mgx4b2c9").1
    !! demo_key
  = Some (activate_record (new_test_license "2026-10-19T10:00:00.000Z")
            "device-1" "2026-10-19T10:05:00.000Z").
Proof.
  split.
  - apply (proj1 issue_collision_handling). vm_compute. eexists. reflexivity.
  - apply (proj1 (proj2 (proj2 (proj2 issue_collision_handling))) _ true true
             (RandomBytes demo_bytes) (RandomBytes demo_bytes)
             "2026-10-19T11:00:00.000Z" "mgx4b2c9" demo_key).
    vm_compute. reflexivity.
Defined.

(** [x !== d] is the negation of [x = Some d]. *)
Lemma js_strict_neq_spec (x : option string) (d : string) :
  FileServer.js_strict_neq x d = negb (bool_decide (x = Some d)).
Proof.
  destruct x as [s|]; cbn [FileServer.js_strict_neq]; [|reflexivity].
  f_equal. destruct (String.eqb_spec s d) as [->|Hne]; symmetry.
  - apply bool_decide_eq_true_2. reflexivity.
  - apply bool_decide_eq_false_2. congruence.
Qed.

Ltac close_strict_neq :=
  rewrite js_strict_neq_spec;
  match goal with
  | |- context [bool_decide ?P] => destruct (bool_decide P); reflexivity
  end.

(** The document-store handlers are the specification's Activate and
    Verify, for non-empty inputs and a reachable database. *)
Lemma doc_activate_refines (db : DocServer.store) (k d now : string) :
  String.eqb k "" = false -> String.eqb d "" = false ->
  DocServer.activate_license db true (Some k) (Some d) now = spec_activate db k d now.
Proof.
  intros Hk Hd.
  unfold DocServer.activate_license, DocServer.activate_license_start, spec_activate.
  simpl js_falsy_field. rewrite Hk, Hd. simpl.
  destruct (db !! k) as [r|] eqn:E; [|reflexivity].
  destruct (activated r).
  - unfold license_deviceId. close_strict_neq.
  - unfold DocServer.resume. cbn [negb]. rewrite E. reflexivity.
Qed.

Lemma doc_verify_refines (db : DocServer.store) (k d : string) :
  String.eqb k "" = false -> String.eqb d "" = false ->
  DocServer.verify_license db true (Some k) (Some d) = (db, spec_verify db k d).
Proof.
  intros Hk Hd. unfold DocServer.verify_license, spec_verify.
  simpl js_falsy_field. rewrite Hk, Hd. simpl.
  destruct (db !! k) as [r|]; [|reflexivity].
  destruct (activated r); [|reflexivity]. simpl.
  unfold license_deviceId. close_strict_neq.
Qed.

(** The file-backed handlers agree with the specification for a readable
    file, a successful write, and a key that names no inherited property
    (no [Object.prototype] member, and no activation has assigned
    properties on [Object.prototype]). *)
Lemma file_lookup_plain h (m : gmap string License) k :
  FileServer.is_object_prototype_name k = false -> FileServer.proto_props h = None ->
  FileServer.js_lookup h m k
  = match m !! k with Some r => FileServer.TRecord r | None => FileServer.TUndefined end.
Proof.
  intros Hn Hp. unfold FileServer.js_lookup. rewrite Hn, Hp.
  destruct (m !! k); reflexivity.
Qed.

Lemma tgt_deviceId_plain h (r : License) :
  FileServer.proto_props h = None ->
  FileServer.tgt_deviceId h (FileServer.TRecord r) = deviceId r.
Proof. intros Hp. simpl. rewrite Hp. destruct (deviceId r); reflexivity. Qed.

Lemma file_activate_refines (s : FileServer.FState) (m : gmap string License) (k d now : string) :
  FileServer.lic_file s = FileServer.FileJson m ->
  FileServer.is_object_prototype_name k = false ->
  FileServer.proto_props (FileServer.builtins s) = None ->
  String.eqb k "" = false -> String.eqb d "" = false ->
  FileServer.activate_license s (Some k) (Some d) now FileServer.WriteOk
  = match spec_activate m k d now with
    | (m', Activated) => (FileServer.mkFState (FileServer.FileJson m') (FileServer.builtins s), Activated)
    | (_, o) => (s, o)
    end.
Proof.
  intros Hf Hn Hp Hk Hd. destruct s as [f h]. simpl in Hf, Hp. subst f.
  unfold FileServer.activate_license, spec_activate.
  cbv zeta. cbn [FileServer.body_field].
  simpl js_falsy_field. rewrite Hk, Hd.
  cbn [orb negb FileServer.builtins FileServer.lic_file FileServer.getLicenses].
  rewrite file_lookup_plain by assumption.
  destruct (m !! k) as [r|]; [|reflexivity]. cbn [FileServer.tgt_truthy negb FileServer.tgt_activated].
  destruct (activated r); [|reflexivity].
  rewrite tgt_deviceId_plain by assumption. close_strict_neq.
Qed.

Lemma file_verify_refines (s : FileServer.FState) (m : gmap string License) (k d : string) :
  FileServer.lic_file s = FileServer.FileJson m ->
  FileServer.is_object_prototype_name k = false ->
  FileServer.proto_props (FileServer.builtins s) = None ->
  String.eqb k "" = false -> String.eqb d "" = false ->
  FileServer.verify_license s (Some k) (Some d) = (s, spec_verify m k d).
Proof.
  intros Hf Hn Hp Hk Hd.
  unfold FileServer.verify_license, spec_verify.
  cbv zeta. cbn [FileServer.body_field].
  simpl js_falsy_field. rewrite Hk, Hd, Hf. cbn [orb negb FileServer.getLicenses].
  rewrite file_lookup_plain by assumption.
  destruct (m !! k) as [r|]; [|reflexivity]. cbn [FileServer.tgt_truthy negb FileServer.tgt_activated].
  destruct (activated r); [|reflexivity]. cbn [negb].
  rewrite tgt_deviceId_plain by assumption. close_strict_neq.
Qed.

(** C1 (code bug): the file-backed activation tests existence with
    [!licenses[licenseKey]], a property read that also finds members of
    [Object.prototype].  With no record for ["constructor"] it does not
    answer 404: it activates the built-in [Object] function and answers
    200, where the document-store server answers 404. *)
Theorem activate_inherited_key_without_record :
  FileServer.getLicenses (FileServer.lic_file FileServer.initial) !! "constructor" = None /\
  (FileServer.activate_license FileServer.initial (Some "constructor") (Some "device-1")
     "2026-10-19T10:05:00.000Z" FileServer.WriteOk).2 = Activated /\
  (DocServer.activate_license ∅ true (Some "constructor") (Some "device-1")
     "2026-10-19T10:05:00.000Z").2 = NotFound.
Proof. split; [|split]; vm_compute; reflexivity. Qed.

(** C2 (code bug): the same lookup in the file-backed verification: with no
    record for ["constructor"] it answers 403 "not activated" instead of
    404, and after the activation above it answers 200 "valid"; the
    document-store server answers 404. *)
Theorem verify_inherited_key_without_record :
  FileServer.verify_license FileServer.initial (Some "constructor") (Some "device-1")
    = (FileServer.initial, NotActivated) /\
  (FileServer.verify_license
     (FileServer.activate_license FileServer.initial (Some "constructor") (Some "device-1")
        "2026-10-19T10:05:00.000Z" FileServer.WriteOk).1
     (Some "constructor") (Some "device-1")).2 = Valid /\
  DocServer.verify_license ∅ true (Some "constructor") (Some "device-1") = (∅, NotFound).
Proof. split; [|split]; vm_compute; reflexivity. Qed.

(* ================================================================== *)
(** ** Further properties of the code *)

(** *** The key generators *)

Lemma hex_pair_value (b : Byte.byte) :
  (16 * upper_hex_value (js_upper_char (hex_digit (Byte.to_N b / 16)))
   + upper_hex_value (js_upper_char (hex_digit (Byte.to_N b mod 16))))%N = Byte.to_N b.
Proof. destruct b; vm_compute; reflexivity. Qed.

Lemma byte_to_N_inj (b1 b2 : Byte.byte) : Byte.to_N b1 = Byte.to_N b2 -> b1 = b2.
Proof.
  intros H. apply (f_equal Byte.of_N) in H. rewrite !Byte.of_to_N in H. congruence.
Qed.

Lemma las_upper_hex_cons (b : Byte.byte) (bs : list Byte.byte) :
  String.list_ascii_of_string (js_toUpperCase (hex_of_bytes (b :: bs)))
  = js_upper_char (hex_digit (Byte.to_N b / 16))
    :: js_upper_char (hex_digit (Byte.to_N b mod 16))
    :: String.list_ascii_of_string (js_toUpperCase (hex_of_bytes bs)).
Proof. reflexivity. Qed.

(** The uppercase hex encoding is injective. *)
Lemma upper_hex_inj (bs1 bs2 : list Byte.byte) :
  String.list_ascii_of_string (js_toUpperCase (hex_of_bytes bs1))
  = String.list_ascii_of_string (js_toUpperCase (hex_of_bytes bs2)) -> bs1 = bs2.
Proof.
  revert bs2; induction bs1 as [|b1 bs1 IH]; intros [|b2 bs2] H;
    rewrite ?las_upper_hex_cons in H; try reflexivity; try discriminate.
  injection H as H1 H2 H3.
  assert (E : Byte.to_N b1 = Byte.to_N b2).
  { rewrite <- (hex_pair_value b1), <- (hex_pair_value b2), H1, H2. reflexivity. }
  f_equal; [apply byte_to_N_inj, E | apply IH, H3].
Qed.

Lemma string_app_cancel_l (p a b : string) : p +:+ a = p +:+ b -> a = b.
Proof. induction p as [|c p IH]; simpl; [tauto|]. intros H. injection H. exact IH. Qed.

Lemma split_24 {A} (l : list A) :
  length l = 24 -> take 8 l ++ take 8 (drop 8 l) ++ take 8 (drop 16 l) = l.
Proof.
  intros Hl. rewrite (take_ge (drop 16 l)) by (rewrite length_drop; lia).
  replace (drop 16 l) with (drop 8 (drop 8 l)) by (rewrite drop_drop; reflexivity).
  rewrite !take_drop. reflexivity.
Qed.

(** X1: distinct 12-byte draws give distinct keys: the key carries all 96
    random bits. *)
Theorem generateLicenseKey_injective (prefix : string) (bs1 bs2 : list Byte.byte) :
  length bs1 = 12 -> length bs2 = 12 -> bs1 <> bs2 ->
  generateLicenseKey prefix (RandomBytes bs1) <> generateLicenseKey prefix (RandomBytes bs2).
Proof.
  intros L1 L2 Hne Heq. apply Hne. apply upper_hex_inj.
  cbn [generateLicenseKey] in Heq. apply string_app_cancel_l in Heq.
  apply (f_equal String.list_ascii_of_string) in Heq.
  rewrite !las_app in Heq. cbn [String.list_ascii_of_string app] in Heq.
  unfold js_substr in Heq. rewrite !las_substring in Heq.
  destruct (upper_hex_of_bytes bs1) as [_ U1], (upper_hex_of_bytes bs2) as [_ U2].
  rewrite L1 in U1. rewrite L2 in U2.
  injection Heq as Heq.
  apply app_inj_1 in Heq as [E1 Heq]; [|rewrite !length_take, !length_drop; lia].
  injection Heq as Heq.
  apply app_inj_1 in Heq as [E2 Heq]; [|rewrite !length_take, !length_drop; lia].
  injection Heq as E3.
  rewrite <- (split_24 (String.list_ascii_of_string (js_toUpperCase (hex_of_bytes bs1)))),
          <- (split_24 (String.list_ascii_of_string (js_toUpperCase (hex_of_bytes bs2))))
    by lia.
  rewrite !drop_0 in E1. rewrite E1, E2, E3. reflexivity.
Qed.

Lemma generateLicenseKey_injective_witness :
  generateLicenseKey "TEST" (RandomBytes demo_bytes)
  <> generateLicenseKey "TEST" (RandomBytes (Byte.x00 :: tail demo_bytes)).
Proof.
  apply (generateLicenseKey_injective "TEST" demo_bytes (Byte.x00 :: tail demo_bytes));
    [reflexivity | reflexivity | discriminate].
Defined.

Lemma hex_of_bytes_app (l1 l2 : list Byte.byte) :
  hex_of_bytes (l1 ++ l2) = hex_of_bytes l1 +:+ hex_of_bytes l2.
Proof. induction l1 as [|b l1 IH]; simpl; [reflexivity | rewrite IH; reflexivity]. Qed.

Lemma toUpperCase_app (a b : string) :
  js_toUpperCase (a +:+ b) = js_toUpperCase a +:+ js_toUpperCase b.
Proof. induction a as [|c a IH]; simpl; [reflexivity | rewrite IH; reflexivity]. Qed.

Lemma substring_app_l (a b : string) (n m : nat) :
  n + m <= String.length a -> String.substring n m (a +:+ b) = String.substring n m a.
Proof.
  revert n m; induction a as [|c a IH]; intros n m H; simpl in H.
  - assert (n = 0) as -> by lia. assert (m = 0) as -> by lia. destruct b; reflexivity.
  - destruct n as [|n], m as [|m]; simpl; try reflexivity.
    + f_equal. apply (IH 0 m). lia.
    + apply IH. lia.
    + apply IH. lia.
Qed.

Lemma length_upper_hex (bs : list Byte.byte) :
  String.length (js_toUpperCase (hex_of_bytes bs)) = 2 * length bs.
Proof. rewrite <- length_las. apply upper_hex_of_bytes. Qed.

(** X2: [generateSecureLicenseKey] draws 16 bytes but its key is the
    12-byte generator's key on the first 12 of them: the last 4 bytes never
    reach the key.  The key has the three-section format. *)
Theorem generateSecureLicenseKey_first_12_bytes (productCode : string) (bs : list Byte.byte) :
  length bs = 16 ->
  generateSecureLicenseKey productCode bs
    = generateLicenseKey productCode (RandomBytes (take 12 bs)) /\
  key_format productCode (generateSecureLicenseKey productCode bs) = true.
Proof.
  intros Hl.
  assert (E : generateSecureLicenseKey productCode bs
              = generateLicenseKey productCode (RandomBytes (take 12 bs))).
  { unfold generateSecureLicenseKey, generateLicenseKey, js_substr.
    assert (Hx : hex_of_bytes bs = hex_of_bytes (take 12 bs) +:+ hex_of_bytes (drop 12 bs))
      by (rewrite <- hex_of_bytes_app, take_drop; reflexivity).
    rewrite Hx, toUpperCase_app.
    assert (Lt : String.length (js_toUpperCase (hex_of_bytes (take 12 bs))) = 24)
      by (rewrite length_upper_hex, length_take; lia).
    rewrite !substring_app_l by lia. reflexivity. }
  split; [exact E|]. rewrite E. apply key_format_primary. rewrite length_take. lia.
Qed.

Lemma generateSecureLicenseKey_first_12_bytes_witness :
  generateSecureLicenseKey "PRO" (demo_bytes ++ [Byte.x01; Byte.x02; Byte.x03; Byte.x04])
  = generateSecureLicenseKey "PRO" (demo_bytes ++ [Byte.xff; Byte.xfe; Byte.xfd; Byte.xfc]).
Proof.
  rewrite (proj1 (generateSecureLicenseKey_first_12_bytes "PRO"
                    (demo_bytes ++ [Byte.x01; Byte.x02; Byte.x03; Byte.x04]) eq_refl)).
  rewrite (proj1 (generateSecureLicenseKey_first_12_bytes "PRO"
                    (demo_bytes ++ [Byte.xff; Byte.xfe; Byte.xfd; Byte.xfc]) eq_refl)).
  reflexivity.
Defined.

(** *** Issue, activate and verify together *)

Lemma js_strict_neq_same (d : string) : FileServer.js_strict_neq (Some d) d = false.
Proof. simpl. rewrite String.eqb_refl. reflexivity. Qed.

Lemma js_strict_neq_other (d d' : string) :
  d' <> d -> FileServer.js_strict_neq (Some d) d' = true.
Proof. intros Hne. simpl. rewrite (proj2 (String.eqb_neq d d')); [reflexivity | congruence]. Qed.

(** The document-store handlers on a stored record. *)
Lemma doc_verify_record (db : DocServer.store) (k d : string) (r : License) :
  String.eqb k "" = false -> String.eqb d "" = false -> db !! k = Some r ->
  DocServer.verify_license db true (Some k) (Some d)
  = (db, if negb (activated r) then NotActivated
         else if FileServer.js_strict_neq (deviceId r) d then DeviceMismatch else Valid).
Proof.
  intros Hk Hd Hr. unfold DocServer.verify_license. cbn [js_falsy_field].
  rewrite Hk, Hd, Hr. cbn [FileServer.tgt_truthy FileServer.tgt_activated]; destruct (activated r); cbn [negb orb]; [destruct (FileServer.js_strict_neq _ _)|]; reflexivity.
Qed.

(** Activate followed at once by its save. *)
Lemma doc_activate_record (db : DocServer.store) (k d now : string) (r : License) :
  String.eqb k "" = false -> String.eqb d "" = false -> db !! k = Some r ->
  DocServer.activate_license db true (Some k) (Some d) now
  = if activated r then
      (db, if FileServer.js_strict_neq (deviceId r) d then DeviceConflict
           else AlreadyActiveSameDevice)
    else (<[k := activate_record r d now]> db, Activated).
Proof.
  intros Hk Hd Hr.
  unfold DocServer.activate_license, DocServer.activate_license_start. cbn [js_falsy_field].
  rewrite Hk, Hd, Hr. cbn [negb orb].
  destruct (activated r); [destruct (FileServer.js_strict_neq _ _); reflexivity|].
  unfold DocServer.resume. cbn [negb]. rewrite Hr. reflexivity.
Qed.

(** The file-backed handlers on an own record of the file. *)
Lemma file_verify_record (s : FileServer.FState) (k d : string) (r : License) :
  String.eqb k "" = false -> String.eqb d "" = false ->
  FileServer.getLicenses (FileServer.lic_file s) !! k = Some r ->
  FileServer.verify_license s (Some k) (Some d)
  = (s, if negb (activated r) then NotActivated
        else if FileServer.js_strict_neq
                  (FileServer.tgt_deviceId (FileServer.builtins s) (FileServer.TRecord r)) d
             then DeviceMismatch else Valid).
Proof.
  intros Hk Hd Hr. unfold FileServer.verify_license. cbv zeta.
  cbn [FileServer.body_field js_falsy_field].
  rewrite Hk, Hd. cbn [orb]. rewrite (js_lookup_own _ _ _ _ Hr).
  cbn [FileServer.tgt_truthy FileServer.tgt_activated]; destruct (activated r); cbn [negb orb]; [destruct (FileServer.js_strict_neq _ _)|]; reflexivity.
Qed.

Lemma file_activate_record (s : FileServer.FState) (k d now : string)
    (w : FileServer.write_result) (r : License) :
  String.eqb k "" = false -> String.eqb d "" = false ->
  FileServer.getLicenses (FileServer.lic_file s) !! k = Some r ->
  FileServer.activate_license s (Some k) (Some d) now w
  = if activated r then
      (s, if FileServer.js_strict_neq
               (FileServer.tgt_deviceId (FileServer.builtins s) (FileServer.TRecord r)) d
          then DeviceConflict else AlreadyActiveSameDevice)
    else
      match FileServer.saveLicenses w
              (<[k := activate_record r d now]> (FileServer.getLicenses (FileServer.lic_file s)))
              (FileServer.lic_file s) with
      | (true, f') => (FileServer.mkFState f' (FileServer.builtins s), Activated)
      | (false, f') => (FileServer.mkFState f' (FileServer.builtins s), ServerError)
      end.
Proof.
  intros Hk Hd Hr. unfold FileServer.activate_license. cbv zeta.
  cbn [FileServer.body_field js_falsy_field].
  rewrite Hk, Hd. cbn [orb]. rewrite (js_lookup_own _ _ _ _ Hr).
  cbn [FileServer.tgt_truthy FileServer.tgt_activated]; destruct (activated r); cbn [negb orb]; [destruct (FileServer.js_strict_neq _ _)|]; [reflexivity..|].
  destruct (FileServer.saveLicenses _ _ _) as [[|] f']; reflexivity.
Qed.

Lemma doc_issue_result (db db1 : DocServer.store) (ok : bool) (e1 e2 : entropy)
    (now ts k : string) :
  DocServer.generate_test_license db true ok e1 e2 now ts = (db1, Issued k) ->
  db !! k = None /\ db1 = <[k := new_test_license now]> db /\ String.eqb k "" = false.
Proof.
  unfold DocServer.generate_test_license, DocServer.generate_test_license_start,
    DocServer.resume, DocServer.insert_new. cbn [negb].
  intros Hq. repeat (case_match; simplify_eq/=);
    (split; [first [assumption | reflexivity] | split; [reflexivity|]]).
  - destruct e1; reflexivity.
  - destruct e2; reflexivity.
Qed.

(** X3: in the document-store server, a key returned by Issue is stored as a
    pending record: Verify answers "not activated"; the first Activate for
    [d] binds it; from then on Verify accepts [d] only, a repeated Activate
    for [d] is the idempotent success and one for another device is
    refused. *)
Theorem doc_issue_activate_verify (db db1 : DocServer.store) (ok : bool) (e1 e2 : entropy)
    (now ts k d d' now' now'' : string) :
  DocServer.generate_test_license db true ok e1 e2 now ts = (db1, Issued k) ->
  String.eqb d "" = false -> String.eqb d' "" = false -> d' <> d ->
  let db2 := <[k := activate_record (new_test_license now) d now']> db1 in
  db1 !! k = Some (new_test_license now) /\
  DocServer.verify_license db1 true (Some k) (Some d) = (db1, NotActivated) /\
  DocServer.activate_license db1 true (Some k) (Some d) now' = (db2, Activated) /\
  DocServer.verify_license db2 true (Some k) (Some d) = (db2, Valid) /\
  DocServer.verify_license db2 true (Some k) (Some d') = (db2, DeviceMismatch) /\
  DocServer.activate_license db2 true (Some k) (Some d) now'' = (db2, AlreadyActiveSameDevice) /\
  DocServer.activate_license db2 true (Some k) (Some d') now'' = (db2, DeviceConflict).
Proof.
  intros Hi Hd Hd' Hne. cbv zeta.
  destruct (doc_issue_result _ _ _ _ _ _ _ _ Hi) as (_ & -> & Hk).
  assert (L1 : <[k := new_test_license now]> db !! k = Some (new_test_license now))
    by apply lookup_insert_eq.
  set (db2 := <[k := activate_record (new_test_license now) d now']>
                (<[k := new_test_license now]> db)).
  assert (L2 : db2 !! k = Some (activate_record (new_test_license now) d now'))
    by apply lookup_insert_eq.
  split; [exact L1|].
  rewrite (doc_verify_record _ _ _ _ Hk Hd L1), (doc_activate_record _ _ _ _ _ Hk Hd L1).
  rewrite (doc_verify_record _ _ _ _ Hk Hd L2), (doc_verify_record _ _ _ _ Hk Hd' L2).
  rewrite (doc_activate_record _ _ _ _ _ Hk Hd L2), (doc_activate_record _ _ _ _ _ Hk Hd' L2).
  cbn [activated activate_record new_test_license deviceId negb].
  rewrite js_strict_neq_same, (js_strict_neq_other _ _ Hne).
  repeat split.
Qed.

Lemma doc_issue_activate_verify_witness :
  let k := demo_key in
  let db1 := <[k := new_test_license "2026-10-19T10:00:00.000Z"]> ∅ in
  let db2 := <[k := activate_record (new_test_license "2026-10-19T10:00:00.000Z")
                      "device-1" "2026-10-19T10:05:00.000Z"]> db1 in
  db1 !! k = Some (new_test_license "2026-10-19T10:00:00.000Z") /\
  DocServer.verify_license db1 true (Some k) (Some "device-1") = (db1, NotActivated) /\
  DocServer.activate_license db1 true (Some k) (Some "device-1") "2026-10-19T10:05:00.000Z"
    = (db2, Activated) /\
  DocServer.verify_license db2 true (Some k) (Some "device-1") = (db2, Valid) /\
  DocServer.verify_license db2 true (Some k) (Some "device-2") = (db2, DeviceMismatch) /\
  DocServer.activate_license db2 true (Some k) (Some "device-1") "2026-10-19T10:10:00.000Z"
    = (db2, AlreadyActiveSameDevice) /\
  DocServer.activate_license db2 true (Some k) (Some "device-2") "2026-10-19T10:10:00.000Z"
    = (db2, DeviceConflict).
Proof.
  apply (doc_issue_activate_verify ∅ _ true (RandomBytes demo_bytes) (RandomBytes demo_bytes)
           "2026-10-19T10:00:00.000Z" "mgx3k1a0").
  - vm_compute. reflexivity.
  - reflexivity.
  - reflexivity.
  - discriminate.
Defined.

(** X4: the same lifecycle in the file-backed server, from any state and
    with successful writes: the issued key is an own property of the new
    file, so it is never confused with an inherited one. *)
Theorem file_issue_activate_verify (s : FileServer.FState) (e : entropy)
    (now d d' now' now'' : string) :
  String.eqb d "" = false -> String.eqb d' "" = false -> d' <> d ->
  let k := generateLicenseKey "TEST" e in
  let m1 := <[k := new_test_license now]> (FileServer.getLicenses (FileServer.lic_file s)) in
  let s1 := FileServer.mkFState (FileServer.FileJson m1) (FileServer.builtins s) in
  let s2 := FileServer.mkFState
              (FileServer.FileJson (<[k := activate_record (new_test_license now) d now']> m1))
              (FileServer.builtins s) in
  FileServer.generate_test_license s e now FileServer.WriteOk = (s1, Issued k) /\
  FileServer.verify_license s1 (Some k) (Some d) = (s1, NotActivated) /\
  FileServer.activate_license s1 (Some k) (Some d) now' FileServer.WriteOk = (s2, Activated) /\
  FileServer.verify_license s2 (Some k) (Some d) = (s2, Valid) /\
  FileServer.verify_license s2 (Some k) (Some d') = (s2, DeviceMismatch) /\
  FileServer.activate_license s2 (Some k) (Some d) now'' FileServer.WriteOk
    = (s2, AlreadyActiveSameDevice) /\
  FileServer.activate_license s2 (Some k) (Some d') now'' FileServer.WriteOk
    = (s2, DeviceConflict).
Proof.
  intros Hd Hd' Hne. cbv zeta.
  set (k := generateLicenseKey "TEST" e).
  set (m1 := <[k := new_test_license now]> (FileServer.getLicenses (FileServer.lic_file s))).
  assert (Hk : String.eqb k "" = false).
  { destruct (test_key_shape e) as [rest Hr]. unfold k. rewrite Hr. reflexivity. }
  assert (L1 : m1 !! k = Some (new_test_license now)) by apply lookup_insert_eq.
  set (m2 := <[k := activate_record (new_test_license now) d now']> m1).
  assert (L2 : m2 !! k = Some (activate_record (new_test_license now) d now'))
    by apply lookup_insert_eq.
  set (s1 := FileServer.mkFState (FileServer.FileJson m1) (FileServer.builtins s)).
  set (s2 := FileServer.mkFState (FileServer.FileJson m2) (FileServer.builtins s)).
  split; [reflexivity|].
  rewrite (file_verify_record s1 _ _ _ Hk Hd L1), (file_activate_record s1 _ _ _ _ _ Hk Hd L1).
  rewrite (file_verify_record s2 _ _ _ Hk Hd L2), (file_verify_record s2 _ _ _ Hk Hd' L2).
  rewrite (file_activate_record s2 _ _ _ _ _ Hk Hd L2), (file_activate_record s2 _ _ _ _ _ Hk Hd' L2).
  cbn [activated activate_record new_test_license deviceId negb FileServer.tgt_deviceId
       FileServer.saveLicenses FileServer.lic_file FileServer.builtins FileServer.getLicenses].
  rewrite js_strict_neq_same, (js_strict_neq_other _ _ Hne).
  repeat split.
Qed.

Lemma file_issue_activate_verify_witness :
  let k := demo_key in
  let t0 := "2026-10-19T10:00:00.000Z" in
  let m1 := <[k := new_test_license t0]> ∅ in
  let s1 := FileServer.mkFState (FileServer.FileJson m1) ∅ in
  let s2 := FileServer.mkFState
              (FileServer.FileJson (<[k := activate_record (new_test_license t0)
                                             "device-1" "2026-10-19T10:05:00.000Z"]> m1)) ∅ in
  FileServer.generate_test_license FileServer.initial (RandomBytes demo_bytes) t0
    FileServer.WriteOk = (s1, Issued k) /\
  FileServer.verify_license s1 (Some k) (Some "device-1") = (s1, NotActivated) /\
  FileServer.activate_license s1 (Some k) (Some "device-1") "2026-10-19T10:05:00.000Z"
    FileServer.WriteOk = (s2, Activated) /\
  FileServer.verify_license s2 (Some k) (Some "device-1") = (s2, Valid) /\
  FileServer.verify_license s2 (Some k) (Some "device-2") = (s2, DeviceMismatch) /\
  FileServer.activate_license s2 (Some k) (Some "device-1") "2026-10-19T10:10:00.000Z"
    FileServer.WriteOk = (s2, AlreadyActiveSameDevice) /\
  FileServer.activate_license s2 (Some k) (Some "device-2") "2026-10-19T10:10:00.000Z"
    FileServer.WriteOk = (s2, DeviceConflict).
Proof.
  apply (file_issue_activate_verify FileServer.initial (RandomBytes demo_bytes)).
  - reflexivity.
  - reflexivity.
  - discriminate.
Defined.

(** X5: a failed write of the license file answers 500.  When opening the
    file fails, nothing changes.  When the write fails after
    [writeFileSync] has opened (and so truncated) the file, the file is
    left unparsable and every later read of it yields [{}]: all records
    are lost.  This holds for Issue and for the first Activate of a
    pending record. *)
Theorem failed_write_outcomes :
  (forall (s : FileServer.FState) (e : entropy) (now : string),
      FileServer.generate_test_license s e now FileServer.WriteOpenFailed = (s, ServerError) /\
      FileServer.generate_test_license s e now FileServer.WriteInterrupted
      = (FileServer.mkFState FileServer.FileUnreadable (FileServer.builtins s), ServerError)) /\
  (forall (s : FileServer.FState) (k d now : string) (r : License),
      String.eqb k "" = false -> String.eqb d "" = false ->
      FileServer.getLicenses (FileServer.lic_file s) !! k = Some r ->
      activated r = false ->
      FileServer.activate_license s (Some k) (Some d) now FileServer.WriteOpenFailed
      = (s, ServerError) /\
      FileServer.activate_license s (Some k) (Some d) now FileServer.WriteInterrupted
      = (FileServer.mkFState FileServer.FileUnreadable (FileServer.builtins s), ServerError)) /\
  FileServer.getLicenses FileServer.FileUnreadable = ∅.
Proof.
  split; [|split; [|reflexivity]].
  - intros [f h] e now. split; reflexivity.
  - intros [f h] k d now r Hk Hd Hr Ha.
    rewrite !(file_activate_record _ _ _ _ _ _ Hk Hd Hr), Ha. split; reflexivity.
Qed.

Lemma failed_write_outcomes_witness :
  FileServer.activate_license
    (FileServer.run FileServer.initial
       [FileServer.Issue (RandomBytes demo_bytes) "2026-10-19T10:00:00.000Z" FileServer.WriteOk])
    (Some demo_key) (Some "device-1") "2026-10-19T10:05:00.000Z" FileServer.WriteInterrupted
  = (FileServer.mkFState FileServer.FileUnreadable ∅, ServerError).
Proof.
  refine (proj2 (proj1 (proj2 failed_write_outcomes)
                   (FileServer.run FileServer.initial
                      [FileServer.Issue (RandomBytes demo_bytes) "2026-10-19T10:00:00.000Z"
                         FileServer.WriteOk])
                   demo_key "device-1" "2026-10-19T10:05:00.000Z"
                   (new_test_license "2026-10-19T10:00:00.000Z") _ _ _ _));
    vm_compute; reflexivity.
Defined.

(** X6: when the license file is unreadable or not valid JSON, a successful
    Issue rewrites it with the new record alone: every record the file held
    is discarded. *)
Theorem unreadable_file_issue_discards_records (s : FileServer.FState) (e : entropy)
    (now : string) :
  FileServer.lic_file s = FileServer.FileUnreadable ->
  FileServer.generate_test_license s e now FileServer.WriteOk
  = (FileServer.mkFState
       (FileServer.FileJson {[generateLicenseKey "TEST" e := new_test_license now]})
       (FileServer.builtins s),
     Issued (generateLicenseKey "TEST" e)).
Proof.
  intros Hf. unfold FileServer.generate_test_license. rewrite Hf.
  cbn [FileServer.getLicenses FileServer.saveLicenses]. rewrite insert_empty. reflexivity.
Qed.

Lemma unreadable_file_issue_discards_records_witness :
  FileServer.generate_test_license (FileServer.mkFState FileServer.FileUnreadable ∅)
    (RandomBytes demo_bytes) "2026-10-19T10:00:00.000Z" FileServer.WriteOk
  = (FileServer.mkFState
       (FileServer.FileJson {[demo_key := new_test_license "2026-10-19T10:00:00.000Z"]}) ∅,
     Issued demo_key).
Proof.
  rewrite (unreadable_file_issue_discards_records
             (FileServer.mkFState FileServer.FileUnreadable ∅) _ _ eq_refl).
  vm_compute. reflexivity.
Defined.

(** *** Key prefixes in the document store *)

Lemma prefix_app_r (p s t : string) :
  String.prefix p s = true -> String.prefix p (s +:+ t) = true.
Proof.
  revert s; induction p as [|c p IH]; intros s H.
  - destruct (s +:+ t); reflexivity.
  - destruct s as [|c' s]; [discriminate|]. simpl in H |- *.
    destruct (ascii_dec c c'); [apply IH, H | discriminate].
Qed.

Lemma prefix_trans (p q s : string) :
  String.prefix p q = true -> String.prefix q s = true -> String.prefix p s = true.
Proof.
  revert q s; induction p as [|c p IH]; intros q s H1 H2.
  - destruct s; reflexivity.
  - destruct q as [|c1 q]; [discriminate|]. destruct s as [|c2 s]; [discriminate|].
    simpl in H1, H2 |- *.
    destruct (ascii_dec c c1) as [<-|]; [|discriminate].
    destruct (ascii_dec c c2) as [<-|]; [|discriminate].
    apply (IH q s); assumption.
Qed.

Lemma generateLicenseKey_prefix (p : string) (e : entropy) :
  String.prefix p (generateLicenseKey p e) = true.
Proof. destruct e; apply prefix_app. Qed.

(** Both keys the issuing endpoint may store start with ["TEST-"]. *)
Lemma issued_key_prefix (e : entropy) (x : string) :
  String.prefix "TEST-" (generateLicenseKey "TEST" e) = true /\
  String.prefix "TEST-" (generateLicenseKey ("TEST-" +:+ x) e) = true.
Proof.
  split.
  - destruct (test_key_shape e) as [rest ->]. apply prefix_app.
  - eapply prefix_trans; [apply prefix_app | apply generateLicenseKey_prefix].
Qed.

Lemma temp_key_prefix (e : entropy) :
  String.prefix "TEST-" (generateLicenseKey "TEMP" e) = false.
Proof. destruct e; reflexivity. Qed.

(** Every stored key and every key a suspended retry will insert starts
    with ["TEST-"]. *)
Lemma doc_step_test_keys (s : DocServer.DState) (ev : DocServer.event) :
  map_Forall (fun k _ => String.prefix "TEST-" k = true) (DocServer.db s) ->
  forallb (fun w => match w with
                    | DocServer.RetrySave nk _ => String.prefix "TEST-" nk
                    | DocServer.ActivationSave _ _ _ => true
                    end) (DocServer.suspended s) = true ->
  map_Forall (fun k _ => String.prefix "TEST-" k = true) (DocServer.db (DocServer.step s ev).1) /\
  forallb (fun w => match w with
                    | DocServer.RetrySave nk _ => String.prefix "TEST-" nk
                    | DocServer.ActivationSave _ _ _ => true
                    end) (DocServer.suspended (DocServer.step s ev).1) = true.
Proof.
  destruct s as [db ws]. cbn [DocServer.db DocServer.suspended]. intros H Hw.
  destruct ev as [c ok e1 e2 now ts|u lk dv now|u lk dv|i ok];
    cbn [DocServer.step DocServer.db DocServer.suspended].
  - unfold DocServer.generate_test_license_start, DocServer.insert_new.
    repeat (case_match; simplify_eq/=); split; try assumption.
    all: try (apply map_Forall_insert_2; [apply (proj1 (issued_key_prefix _ EmptyString)) | exact H]).
    rewrite Hw, andb_true_r. apply (proj2 (issued_key_prefix _ _)).
  - destruct (DocServer.activate_license_start db u lk dv now) as [o|w] eqn:E;
      cbn [fst DocServer.db DocServer.suspended]; split; try assumption.
    destruct (activate_start_await _ _ _ _ _ _ E) as (k0 & d0 & r0 & -> & _ & _).
    exact Hw.
  - split; assumption.
  - destruct (ws !! i) as [w|] eqn:Ew; cbn [fst DocServer.db DocServer.suspended];
      [|split; assumption].
    pose proof (forallb_lookup _ _ _ _ Hw Ew) as Hk. cbv beta in Hk.
    destruct (DocServer.resume db w ok) as [db' o] eqn:E.
    cbn [fst DocServer.db DocServer.suspended].
    split; [|apply forallb_delete, Hw].
    revert E. destruct w as [nk t|k d t]; unfold DocServer.resume, DocServer.insert_new;
      repeat case_match; intros E; simplify_eq/=; try exact H.
    + apply map_Forall_insert_2; [exact Hk | exact H].
    + apply map_Forall_insert_2; [|exact H].
      match goal with E : db !! k = Some _ |- _ => exact (map_Forall_lookup_1 _ _ _ _ H E) end.
Qed.

Lemma doc_run_test_keys (s : DocServer.DState) (evs : list DocServer.event) :
  map_Forall (fun k _ => String.prefix "TEST-" k = true) (DocServer.db s) ->
  forallb (fun w => match w with
                    | DocServer.RetrySave nk _ => String.prefix "TEST-" nk
                    | DocServer.ActivationSave _ _ _ => true
                    end) (DocServer.suspended s) = true ->
  map_Forall (fun k _ => String.prefix "TEST-" k = true) (DocServer.db (DocServer.run s evs)).
Proof.
  revert s; induction evs as [|ev evs IH]; intros s H Hw; simpl; [exact H|].
  destruct (doc_step_test_keys s ev H Hw) as [H' Hw']. apply IH; assumption.
Qed.

(** X7: every key the document-store server stores starts with ["TEST-"],
    under every interleaving of requests.  A temporary key, handed out
    (status 200, nothing stored) while the database is not connected,
    starts with ["TEMP-"]: once the database answers, Activate and Verify
    reject it as unknown (404) and change nothing. *)
Theorem doc_temporary_key_rejected :
  (forall evs : list DocServer.event,
      map_Forall (fun k _ => String.prefix "TEST-" k = true)
        (DocServer.db (DocServer.run DocServer.initial evs))) /\
  (forall (evs : list DocServer.event) (ok : bool) (e1 e2 : entropy) (now ts d now' : string),
      String.eqb d "" = false ->
      let s := DocServer.run DocServer.initial evs in
      let k := generateLicenseKey "TEMP" e1 in
      DocServer.step s (DocServer.Issue false ok e1 e2 now ts) = (s, Some (IssuedTemporary k)) /\
      DocServer.step s (DocServer.Activate true (Some k) (Some d) now') = (s, Some NotFound) /\
      DocServer.step s (DocServer.Verify true (Some k) (Some d)) = (s, Some NotFound)).
Proof.
  assert (Hall : forall evs : list DocServer.event,
             map_Forall (fun k _ => String.prefix "TEST-" k = true)
               (DocServer.db (DocServer.run DocServer.initial evs)))
    by (intros evs; apply doc_run_test_keys; [apply map_Forall_empty | reflexivity]).
  split; [exact Hall|].
  intros evs ok e1 e2 now ts d now' Hd. cbv zeta.
  pose proof (Hall evs) as Hev.
  destruct (DocServer.run DocServer.initial evs) as [db ws].
  cbn [DocServer.db] in Hev.
  assert (Hn : db !! generateLicenseKey "TEMP" e1 = None).
  { destruct (db !! generateLicenseKey "TEMP" e1) as [r|] eqn:E; [|reflexivity].
    pose proof (map_Forall_lookup_1 _ _ _ _ Hev E) as P.
    cbv beta in P. rewrite temp_key_prefix in P. discriminate. }
  assert (Hk : String.eqb (generateLicenseKey "TEMP" e1) "" = false) by (destruct e1; reflexivity).
  split; [reflexivity|].
  cbn [DocServer.step DocServer.db].
  unfold DocServer.activate_license_start, DocServer.verify_license. cbn [js_falsy_field].
  rewrite Hk, Hd, Hn. split; reflexivity.
Qed.

Lemma doc_temporary_key_rejected_witness :
  let s := DocServer.run DocServer.initial demo_doc_events in
  let k := generateLicenseKey "TEMP" (RandomBytes demo_bytes) in
  DocServer.step s (DocServer.Issue false true (RandomBytes demo_bytes) (RandomBytes demo_bytes)
    "2026-10-19T10:01:00.000Z" "mgx3k2b1") = (s, Some (IssuedTemporary k)) /\
  DocServer.step s (DocServer.Activate true (Some k) (Some "device-1") "2026-10-19T10:05:00.000Z")
    = (s, Some NotFound) /\
  DocServer.step s (DocServer.Verify true (Some k) (Some "device-1")) = (s, Some NotFound).
Proof. apply (proj2 doc_temporary_key_rejected). reflexivity. Defined.

(** *** Activated records *)

(** X8: an activated record is never modified again, not even its
    [activationDate]: in the document-store server under every
    interleaving of requests, once no activation of its key that read it
    while pending is still waiting for its save; in the file-backed server
    under every sequence in which no issuance generates its key and no
    write fails after the file was opened. *)
Theorem activated_record_frozen :
  (forall (s : DocServer.DState) (evs : list DocServer.event) (k : string) (r : License),
      DocServer.db s !! k = Some r -> activated r = true ->
      no_activation_in_flight k (DocServer.suspended s) = true ->
      DocServer.db (DocServer.run s evs) !! k = Some r) /\
  (forall (s : FileServer.FState) (qs : list FileServer.request) (k : string) (r : License),
      existsb (fun q => issues_key k q || interrupts_write q) qs = false ->
      FileServer.getLicenses (FileServer.lic_file s) !! k = Some r -> activated r = true ->
      FileServer.getLicenses (FileServer.lic_file (FileServer.run s qs)) !! k = Some r).
Proof.
  split.
  - intros s evs k r Hr Ha Hf. exact (proj1 (doc_run_keeps_activated s evs k r Hr Ha Hf)).
  - intros s qs k r Hq Hr Ha. exact (file_run_keeps_activated s qs k r Hq Hr Ha).
Qed.

Lemma activated_record_frozen_witness :
  DocServer.db (DocServer.run (DocServer.run DocServer.initial demo_doc_events)
    [DocServer.Activate true (Some demo_key) (Some "device-2") "2026-10-19T11:00:00.000Z";
     DocServer.Issue true true (RandomBytes demo_bytes) (RandomBytes demo_bytes)
       "2026-10-19T11:01:00.000Z" "mgx4b2c9";
     DocServer.Resume 0 true]) !! demo_key
  = Some (activate_record (new_test_license "2026-10-19T10:00:00.000Z")
            "device-1" "2026-10-19T10:05:00.000Z") /\
  FileServer.getLicenses (FileServer.lic_file
    (FileServer.run demo_activated
       [FileServer.Activate (Some demo_key) (Some "device-1") "2026-10-19T11:00:00.000Z"
          FileServer.WriteOk;
        FileServer.Issue (RandomBytesThrows "0.4fzyo82mvyr") "2026-10-19T11:01:00.000Z"
          FileServer.WriteOpenFailed;
        FileServer.Admin])) !! demo_key
  = Some (activate_record (new_test_license "2026-10-19T10:00:00.000Z")
            "device-1" "2026-10-19T10:05:00.000Z").
Proof.
  split.
  - apply (proj1 activated_record_frozen); vm_compute; reflexivity.
  - apply (proj2 activated_record_frozen); vm_compute; reflexivity.
Defined.

(** *** The shape of stored records *)

Lemma record_shape_new (now : string) : record_shape (new_test_license now).
Proof.
  split; [reflexivity|]. simpl. split; [intros [x Hx]; discriminate | discriminate].
Qed.

Lemma record_shape_activate (r : License) (d now : string) :
  record_shape r -> record_shape (activate_record r d now).
Proof.
  intros [Hp _]. split; [exact Hp|]. simpl. split; [reflexivity | intros _; eexists; reflexivity].
Qed.

(** X9: in every reachable state of both servers (any interleaving of
    document-store requests, any failed writes), every stored record has
    product ["test_product"] and has an [activationDate] exactly when it is
    activated. *)
Theorem stored_records_shape :
  (forall qs : list FileServer.request,
      map_Forall (fun _ => record_shape)
        (FileServer.getLicenses (FileServer.lic_file (FileServer.run FileServer.initial qs)))) /\
  (forall evs : list DocServer.event,
      map_Forall (fun _ => record_shape) (DocServer.db (DocServer.run DocServer.initial evs))).
Proof.
  split; intros qs.
  - apply file_run_pres; [exact record_shape_new | exact record_shape_activate |].
    apply map_Forall_empty.
  - apply doc_run_pres; [exact record_shape_new | exact record_shape_activate |].
    apply map_Forall_empty.
Qed.

(** *** Inherited names in the file-backed server *)

(** The first activation of ["__proto__"]: [licenses["__proto__"]] is
    [Object.prototype]; the handler assigns [activated], [deviceId] and
    [activationDate] on it and writes back the records it read. *)
Lemma proto_activation_result (s : FileServer.FState) (d now : string) :
  FileServer.builtins s = ∅ ->
  FileServer.getLicenses (FileServer.lic_file s) !! "__proto__" = None ->
  String.eqb d "" = false ->
  FileServer.activate_license s (Some "__proto__") (Some d) now FileServer.WriteOk
  = (FileServer.mkFState (FileServer.FileJson (FileServer.getLicenses (FileServer.lic_file s)))
       (<["__proto__" := (d, now)]> ∅), Activated).
Proof.
  intros Hb Hm Hd. destruct s as [f h]. cbn [FileServer.builtins FileServer.lic_file] in *. subst h.
  unfold FileServer.activate_license. cbv zeta.
  cbn [FileServer.body_field js_falsy_field]. rewrite Hd. cbn [FileServer.lic_file FileServer.builtins orb negb].
  unfold FileServer.js_lookup. rewrite Hm.

  reflexivity.
Qed.

(** X10: activating the key ["__proto__"] with device [d] on a fresh process
    answers 200 and leaves the records unchanged, but assigns
    [activated = true] and [deviceId = d] on [Object.prototype]: from then on
    Verify with [d] answers 200 "valid" for every [Object.prototype] name and
    for the keys ["activated"] and ["deviceId"], none of which was ever
    issued. *)
Theorem proto_activation_validates_unissued_keys (s : FileServer.FState) (d now : string) :
  FileServer.builtins s = ∅ ->
  FileServer.getLicenses (FileServer.lic_file s) !! "__proto__" = None ->
  String.eqb d "" = false ->
  let s1 := (FileServer.activate_license s (Some "__proto__") (Some d) now FileServer.WriteOk).1 in
  (FileServer.activate_license s (Some "__proto__") (Some d) now FileServer.WriteOk).2
    = Activated /\
  FileServer.getLicenses (FileServer.lic_file s1) = FileServer.getLicenses (FileServer.lic_file s) /\
  (forall k : string,
      FileServer.getLicenses (FileServer.lic_file s) !! k = None ->
      k ∈ FileServer.object_prototype_names \/ k = "activated" \/ k = "deviceId" ->
      FileServer.verify_license s1 (Some k) (Some d) = (s1, Valid)).
Proof.
  intros Hb Hm Hd. cbv zeta. rewrite (proto_activation_result s d now Hb Hm Hd).
  split; [reflexivity | split; [reflexivity|]].
  intros k Hk Hmem.
  set (m := FileServer.getLicenses (FileServer.lic_file s)) in *.
  set (h1 := <["__proto__" := (d, now)]> (∅ : gmap string (string * string))).
  assert (Hp : FileServer.proto_props h1 = Some (d, now)) by apply lookup_insert_eq.
  assert (Hk0 : String.eqb k "" = false).
  { apply String.eqb_neq. intros ->.
    destruct Hmem as [Hmem|[Hmem|Hmem]]; [|discriminate|discriminate].
    apply list_elem_of_In in Hmem. simpl in Hmem. intuition discriminate. }
  unfold FileServer.verify_license. cbv zeta.
  cbn [FileServer.body_field js_falsy_field]. rewrite Hk0, Hd.
  cbn [orb fst FileServer.lic_file FileServer.builtins FileServer.getLicenses].
  unfold FileServer.js_lookup. rewrite Hk.
  destruct Hmem as [Hmem|[->| ->]].
  - assert (Hn : FileServer.is_object_prototype_name k = true).
    { apply existsb_exists. exists k. split; [apply list_elem_of_In, Hmem | apply String.eqb_refl]. }
    rewrite Hn. cbn [FileServer.tgt_truthy FileServer.tgt_activated FileServer.tgt_deviceId negb].
    rewrite Hp, orb_true_r.
    assert (Hdev : match h1 !! k with Some (d0, _) => Some d0
                   | None => fst <$> Some (d, now) end = Some d).
    { destruct (String.eq_dec k "__proto__") as [->|Hne].
      - unfold h1. rewrite lookup_insert_eq. reflexivity.
      - unfold h1. rewrite lookup_insert_ne by congruence. reflexivity. }
    rewrite Hdev, js_strict_neq_same. reflexivity.
  - cbn [FileServer.is_object_prototype_name]. rewrite ?Hp.
    cbn [FileServer.tgt_truthy FileServer.tgt_activated FileServer.tgt_deviceId negb].
    cbn. rewrite Hp, bool_decide_eq_true_2 by (eexists; reflexivity).
    change (fst <$> Some (d, now)) with (Some d). rewrite js_strict_neq_same. reflexivity.
  - cbn [FileServer.is_object_prototype_name]. rewrite ?Hp.
    cbn [FileServer.tgt_truthy FileServer.tgt_activated FileServer.tgt_deviceId negb].
    cbn. rewrite ?Hd, Hp, bool_decide_eq_true_2 by (eexists; reflexivity).
    change (fst <$> Some (d, now)) with (Some d). rewrite js_strict_neq_same. reflexivity.
Qed.

Lemma proto_activation_validates_unissued_keys_witness :
  let s1 := (FileServer.activate_license FileServer.initial (Some "__proto__")
               (Some "device-1") "2026-10-19T10:05:00.000Z" FileServer.WriteOk).1 in
  FileServer.verify_license s1 (Some "toString") (Some "device-1") = (s1, Valid) /\
  FileServer.verify_license s1 (Some "activated") (Some "device-1") = (s1, Valid).
Proof.
  destruct (proto_activation_validates_unissued_keys FileServer.initial "device-1"
              "2026-10-19T10:05:00.000Z" eq_refl eq_refl eq_refl) as (_ & _ & H).
  split; apply H.
  - reflexivity.
  - left. apply list_elem_of_In. simpl. tauto.
  - reflexivity.
  - right. left. reflexivity.
Defined.

(** *** The two servers on ordinary keys *)

(** X11: for a readable file, a key that names no [Object.prototype]
    property, no earlier activation of ["__proto__"], non-empty inputs and
    a successful write, the file-backed Activate and Verify give the same
    answers as the document-store ones on a database holding the same
    records, and leave the same records. *)
Theorem file_doc_agree_on_plain_keys (s : FileServer.FState) (m : gmap string License)
    (k d now : string) :
  FileServer.lic_file s = FileServer.FileJson m ->
  FileServer.is_object_prototype_name k = false ->
  FileServer.proto_props (FileServer.builtins s) = None ->
  String.eqb k "" = false -> String.eqb d "" = false ->
  FileServer.verify_license s (Some k) (Some d)
    = (s, (DocServer.verify_license m true (Some k) (Some d)).2) /\
  (FileServer.activate_license s (Some k) (Some d) now FileServer.WriteOk).2
    = (DocServer.activate_license m true (Some k) (Some d) now).2 /\
  FileServer.lic_file (FileServer.activate_license s (Some k) (Some d) now FileServer.WriteOk).1
    = FileServer.FileJson (DocServer.activate_license m true (Some k) (Some d) now).1 /\
  FileServer.builtins (FileServer.activate_license s (Some k) (Some d) now FileServer.WriteOk).1
    = FileServer.builtins s.
Proof.
  intros Hf Hn Hp Hk Hd.
  rewrite (file_verify_refines s m k d), (doc_verify_refines m k d) by assumption.
  rewrite (file_activate_refines s m k d now), (doc_activate_refines m k d now) by assumption.
  split; [reflexivity|].
  unfold spec_activate. destruct (m !! k) as [r|]; [|cbn; rewrite Hf; auto].
  destruct (activated r); [destruct (bool_decide _)|]; cbn; rewrite ?Hf; auto.
Qed.

Lemma file_doc_agree_on_plain_keys_witness :
  FileServer.verify_license demo_activated (Some demo_key) (Some "device-2")
    = (demo_activated,
       (DocServer.verify_license demo_doc_activated true (Some demo_key) (Some "device-2")).2).
Proof.
  apply (file_doc_agree_on_plain_keys demo_activated demo_doc_activated demo_key "device-2"
           "2026-10-19T10:10:00.000Z"); vm_compute; reflexivity.
Defined.
